(** * The drawing bridge of the Luke editor MCP server

    A shallow embedding of [mcp_server/tools/drawing_api.py]: the
    [DrawingAPI] class that locates the editor's WebSocket port, keeps one
    connection to it and exchanges JSON command envelopes.

    The object's fields are a record, every method is a function in a small
    state-and-exception monad, and everything outside the process (the file
    system, the network, the remote editor) is an oracle [World] whose
    answers may change from one interaction to the next. All that the
    process does to the outside is recorded, in order, in a trace. *)

From Stdlib Require Import String Ascii ZArith List Bool Lia.
From Stdlib Require Import Floats.SpecFloat.
Import ListNotations.
Local Open Scope string_scope.
Local Open Scope Z_scope.

(** ** Python values *)

(** The values that flow through the bridge: what [json.loads] can produce
    and what callers pass in. [None] and JSON [null] are the same value. *)
#[warnings="-register-all"]
Inductive value : Type :=
| VNone
| VBool (b : bool)
| VInt (n : Z)
| VFloat (f : spec_float)
| VStr (s : string)
| VList (l : list value)
| VDict (d : list (string * value)).

(** Python truthiness, as used by [if x] and [if not x]. *)
Definition truthy (v : value) : bool :=
  match v with
  | VNone => false
  | VBool b => b
  | VInt n => negb (n =? 0)
  | VFloat (S754_zero _) => false
  | VFloat _ => true
  | VStr s => negb (String.eqb s "")
  | VList [] => false
  | VList _ => true
  | VDict [] => false
  | VDict _ => true
  end.

(** [type(v).__name__], which shows up in [AttributeError] messages. *)
Definition type_name (v : value) : string :=
  match v with
  | VNone => "NoneType"
  | VBool _ => "bool"
  | VInt _ => "int"
  | VFloat _ => "float"
  | VStr _ => "str"
  | VList _ => "list"
  | VDict _ => "dict"
  end.

(** Lookup in a dict held as an ordered list of items. *)
Fixpoint dict_lookup (d : list (string * value)) (k : string) : option value :=
  match d with
  | [] => None
  | (k', v) :: d' => if String.eqb k' k then Some v else dict_lookup d' k
  end.

(** [d.get(k, default)]. *)
Definition dict_get (d : list (string * value)) (k : string) (default : value)
  : value :=
  match dict_lookup d k with
  | Some v => v
  | None => default
  end.

(** ** Exceptions *)

Inductive exn_class : Type :=
| Exception
| AttributeError
| WebSocketException
| JSONDecodeError.

(** A raised exception: its class and [str(e)]. *)
Record exn : Type := Raise { exn_type : exn_class; exn_msg : string }.

Definition no_file_path_msg : string :=
  "No file path set. Call set_file first.".
Definition server_not_found_msg : string :=
  "VSCode extension WebSocket server not found. Make sure the extension is running.".
Definition connect_failed_msg : string :=
  "Failed to connect to VSCode extension WebSocket server.".
Definition communicate_prefix : string :=
  "Failed to communicate with VSCode extension: ".

(** ** Paths and the port file *)

(** A [pathlib.Path] as its components. *)
Definition Path : Type := list string.

(** The [/] operator of [pathlib]. *)
Definition path_join (p : Path) (name : string) : Path := (p ++ [name])%list.

Definition is_space (c : ascii) : bool :=
  let n := nat_of_ascii c in
  ((9 <=? n) && (n <=? 13) || (28 <=? n) && (n <=? 32))%nat.

Definition is_digit (c : ascii) : bool :=
  let n := nat_of_ascii c in ((48 <=? n) && (n <=? 57))%nat.

Definition digit_val (c : ascii) : Z := Z.of_nat (nat_of_ascii c) - 48.

Fixpoint lstrip (s : string) : string :=
  match s with
  | String c s' => if is_space c then lstrip s' else s
  | EmptyString => EmptyString
  end.

(** Drops trailing white space: a character stays when it is not a space
    or when something that stays follows it. *)
Fixpoint rstrip (s : string) : string :=
  match s with
  | EmptyString => EmptyString
  | String c s' =>
      match rstrip s' with
      | EmptyString => if is_space c then EmptyString else String c EmptyString
      | r => String c r
      end
  end.

(** [str.strip()] on ASCII text. *)
Definition strip (s : string) : string := rstrip (lstrip s).

(** The digits of a decimal literal, a single underscore allowed between
    two digits; [acc] is the value read so far and [after_digit] tells
    whether the previous character was a digit. *)
Fixpoint parse_digits (s : string) (acc : Z) (after_digit : bool) : option Z :=
  match s with
  | EmptyString => if after_digit then Some acc else None
  | String c s' =>
      if is_digit c then parse_digits s' (10 * acc + digit_val c) true
      else if Ascii.eqb c "_"%char then
        if after_digit then parse_digits s' acc false else None
      else None
  end.

(** [int(s)] on ASCII text: surrounding white space, an optional sign,
    decimal digits. [None] stands for [ValueError]. Digits outside ASCII
    and the interpreter's cap on the length of a literal are left out. *)
Definition py_int (s : string) : option Z :=
  match strip s with
  | String "-"%char s' => option_map Z.opp (parse_digits s' 0 false)
  | String "+"%char s' => parse_digits s' 0 false
  | s' => parse_digits s' 0 false
  end.

(** ** The outside world *)

(** What opening and reading a file gives: its text, or [IOError]. A file
    whose bytes do not decode raises a [ValueError], which the caller
    treats like text that is not a number; it is [FileText] of such text. *)
Inductive read_result : Type :=
| FileText (s : string)
| FileIOError (msg : string).

(** What [ws.recv()] followed by [json.loads] gives: an exception out of
    the transport, text that is not JSON, or the decoded document. *)
Inductive recv_result : Type :=
| RecvFault (msg : string)
| RecvUndecodable (msg : string)
| RecvDecoded (v : value).

(** The environment: the file system, the network with the editor behind
    it, and the one interpreter function left open. Every answer of the
    file system and the network may depend on the moment it is asked at:
    the first argument counts the interactions made so far. *)
Record World : Type := {
  home : Path;
  path_exists : nat -> Path -> bool;
  read_text : nat -> Path -> read_result;
  (** [websocket.create_connection]: [None] when the handshake succeeds,
      else the message of the exception. *)
  create_connection : nat -> Z -> option string;
  (** [ws.send]: [None] when it returns, else the exception's message. *)
  ws_send : nat -> nat -> value -> option string;
  ws_recv : nat -> nat -> recv_result;
  (** [str(v)] of a value that is not a string. *)
  py_str : value -> string
}.

(** An open [websocket.WebSocket]: which socket it is, and its
    [connected] attribute. *)
Record WebSocket : Type := { sock : nat; connected : bool }.

(** Why a port file that exists gave no port: [int] raised [ValueError]
    on its text, or opening or reading it raised [IOError]. *)
Inductive read_failure : Type :=
| NotAnInteger (text : string)
| IOFailure (msg : string).

(** Lines printed on standard error, by the format that produced them. *)
Inductive log_line : Type :=
| LogDiscovered (port : Z)
| LogReadError (p : Path) (cause : read_failure)
| LogNoPortWarning
| LogServerNotFoundWarning
| LogConnected (port : Z)
| LogConnectFailed (msg : string).

(** What the process does to the outside, in order. *)
Inductive event : Type :=
| EvExists (p : Path) (found : bool)
| EvRead (p : Path)
| EvPrint (l : log_line)
| EvConnect (port : Z) (opened : option nat)
| EvSend (s : nat) (command : value)
| EvRecv (s : nat)
| EvClose (s : nat).

(** ** The object and the machine it runs on *)

(** The fields of a [DrawingAPI] object. *)
Record DrawingAPI : Type := {
  file_path : value;
  vscode_port : option Z;
  ws : option WebSocket
}.

(** The running process: the module's one [DrawingAPI] object, the number
    of answers taken from the world so far, the number the next socket
    will get, and what has been done to the outside. *)
Record Machine : Type := {
  self : DrawingAPI;
  clock : nat;
  next_sock : nat;
  trace : list event
}.

Inductive outcome (A : Type) : Type :=
| Returned (a : A)
| Raised (e : exn).
Arguments Returned {A} a.
Arguments Raised {A} e.

(** A method body: it reads the world, transforms the machine and either
    returns or raises. State changes made before a raise persist. *)
Definition M (A : Type) : Type := World -> Machine -> outcome A * Machine.

Definition ret {A} (a : A) : M A := fun _ m => (Returned a, m).

Definition bind {A B} (c : M A) (k : A -> M B) : M B :=
  fun w m =>
    match c w m with
    | (Returned a, m') => k a w m'
    | (Raised e, m') => (Raised e, m')
    end.

Definition raise {A} (e : exn) : M A := fun _ m => (Raised e, m).

(** [try: c  except Exception as e: h e]; every modelled exception class
    derives from [Exception]. *)
Definition try_except {A} (c : M A) (h : exn -> M A) : M A :=
  fun w m =>
    match c w m with
    | (Returned a, m') => (Returned a, m')
    | (Raised e, m') => h e w m'
    end.

Declare Scope py_scope.
Delimit Scope py_scope with py.
Notation "x <- c ;; k" := (bind c (fun x => k))
  (at level 61, c at next level, right associativity) : py_scope.
Notation "c ;; k" := (bind c (fun _ => k))
  (at level 61, right associativity) : py_scope.
Local Open Scope py_scope.

Definition get_self : M DrawingAPI := fun _ m => (Returned (self m), m).

Definition set_self (f : DrawingAPI -> DrawingAPI) : M unit :=
  fun _ m =>
    (Returned tt,
     {| self := f (self m); clock := clock m;
        next_sock := next_sock m; trace := trace m |}).

Definition emit (e : event) : M unit :=
  fun _ m =>
    (Returned tt,
     {| self := self m; clock := clock m;
        next_sock := next_sock m; trace := (trace m ++ [e])%list |}).

(** Asks the world a question; the clock advances. *)
Definition ask {A} (q : World -> nat -> A) : M A :=
  fun w m =>
    (Returned (q w (clock m)),
     {| self := self m; clock := S (clock m);
        next_sock := next_sock m; trace := trace m |}).

Definition print (l : log_line) : M unit := emit (EvPrint l).

Definition set_file_path (v : value) (a : DrawingAPI) : DrawingAPI :=
  {| file_path := v; vscode_port := vscode_port a; ws := ws a |}.
Definition set_vscode_port (p : option Z) (a : DrawingAPI) : DrawingAPI :=
  {| file_path := file_path a; vscode_port := p; ws := ws a |}.
Definition set_ws (h : option WebSocket) (a : DrawingAPI) : DrawingAPI :=
  {| file_path := file_path a; vscode_port := vscode_port a; ws := h |}.

(** ** Endpoint discovery *)

(** The candidate port files, in the order they are probed. *)
Definition possible_paths (w : World) : list Path :=
  [ path_join (path_join (path_join (path_join (home w) ".vscode")
      "extensions") "globalStorage") "mcp_port.txt";
    path_join (path_join (path_join (path_join (path_join (home w) ".config")
      "Code") "User") "globalStorage") "mcp_port.txt";
    path_join ["/tmp"] "luke_editor_mcp_port.txt" ].

(** The [for] loop of [_discover_vscode_port]: [true] when a port was
    stored (the [return] inside the loop), [false] when the loop ran out. *)
Fixpoint discover_loop (paths : list Path) : M bool :=
  match paths with
  | [] => ret false
  | path :: rest =>
      found <- ask (fun w t => path_exists w t path) ;;
      emit (EvExists path found) ;;
      if found then
        emit (EvRead path) ;;
        r <- ask (fun w t => read_text w t path) ;;
        match r with
        | FileText s =>
            match py_int s with
            | Some n =>
                set_self (set_vscode_port (Some n)) ;;
                print (LogDiscovered n) ;;
                ret true
            | None =>
                print (LogReadError path (NotAnInteger s)) ;;
                discover_loop rest
            end
        | FileIOError msg =>
            print (LogReadError path (IOFailure msg)) ;;
            discover_loop rest
        end
      else discover_loop rest
  end.

Definition _discover_vscode_port : M unit :=
  fun w =>
    (stored <- discover_loop (possible_paths w) ;;
     if stored then ret tt else print LogNoPortWarning) w.

(** ** The session *)

(** [if self.vscode_port]: a port that is [None] or [0] counts as absent. *)
Definition port_truthy (p : option Z) : bool :=
  match p with
  | Some n => negb (n =? 0)
  | None => false
  end.

(** [self.ws and self.ws.connected]. *)
Definition ws_live (h : option WebSocket) : bool :=
  match h with
  | Some s => connected s
  | None => false
  end.

(** Takes the next unused socket number. *)
Definition fresh_sock : M nat :=
  fun _ m =>
    (Returned (next_sock m),
     {| self := self m; clock := clock m;
        next_sock := S (next_sock m); trace := trace m |}).

Definition _connect : M unit :=
  a <- get_self ;;
  (if port_truthy (vscode_port a) then ret tt else _discover_vscode_port) ;;
  a <- get_self ;;
  match vscode_port a with
  | Some port =>
      if port_truthy (Some port) then
        r <- ask (fun w t => create_connection w t port) ;;
        match r with
        | None =>
            s <- fresh_sock ;;
            emit (EvConnect port (Some s)) ;;
            set_self (set_ws (Some {| sock := s; connected := true |})) ;;
            print (LogConnected port)
        | Some msg =>
            emit (EvConnect port None) ;;
            print (LogConnectFailed msg) ;;
            set_self (set_ws None)
        end
      else print LogServerNotFoundWarning
  | None => print LogServerNotFoundWarning
  end.

Definition _ensure_connected : M unit :=
  a <- get_self ;;
  if ws_live (ws a) then ret tt
  else
    _discover_vscode_port ;;
    a <- get_self ;;
    if port_truthy (vscode_port a) then
      _connect ;;
      a <- get_self ;;
      if ws_live (ws a) then ret tt
      else raise (Raise Exception connect_failed_msg)
    else raise (Raise Exception server_not_found_msg).

(** [str(Exception(v))]. *)
Definition str_of (w : World) (v : value) : string :=
  match v with
  | VStr s => s
  | _ => py_str w v
  end.

Definition no_attribute (v : value) (attr : string) : exn :=
  Raise AttributeError
    ("'" ++ type_name v ++ "' object has no attribute '" ++ attr ++ "'").

(** [v.get(k, default)] on any value: only a dict has [get]. *)
Definition value_get (v : value) (k : string) (default : value) : M value :=
  match v with
  | VDict d => ret (dict_get d k default)
  | _ => raise (no_attribute v "get")
  end.

(** The body of the [try] in [_send_command]. *)
Definition exchange (command : value) : M value :=
  a <- get_self ;;
  match ws a with
  | None => raise (no_attribute VNone "send")
  | Some h =>
      emit (EvSend (sock h) command) ;;
      sent <- ask (fun w t => ws_send w t (sock h) command) ;;
      match sent with
      | Some msg => raise (Raise WebSocketException msg)
      | None =>
          emit (EvRecv (sock h)) ;;
          r <- ask (fun w t => ws_recv w t (sock h)) ;;
          match r with
          | RecvFault msg => raise (Raise WebSocketException msg)
          | RecvUndecodable msg => raise (Raise JSONDecodeError msg)
          | RecvDecoded response =>
              success <- value_get response "success" VNone ;;
              if truthy success then value_get response "result" (VDict [])
              else
                err <- value_get response "error" (VStr "Unknown error") ;;
                fun w => raise (Raise Exception (str_of w err)) w
          end
      end
  end.

(** The [except] clause of [_send_command]. *)
Definition teardown (e : exn) : M value :=
  a <- get_self ;;
  match ws a with
  | Some h => emit (EvClose (sock h))
  | None => ret tt
  end ;;
  set_self (set_ws None) ;;
  raise (Raise Exception (communicate_prefix ++ exn_msg e)).

Definition _send_command (command : value) : M value :=
  _ensure_connected ;;
  try_except (exchange command) teardown.

(** ** The public operations *)

Definition get_active_file : M value :=
  let command := VDict [("type", VStr "get_active_file")] in
  result <- _send_command command ;;
  fp <- value_get result "file_path" VNone ;;
  (if truthy fp then set_self (set_file_path fp) else ret tt) ;;
  ret result.

Definition set_file (path : string) : M value :=
  set_self (set_file_path (VStr path)) ;;
  let command := VDict [("type", VStr "set_file"); ("file_path", VStr path)] in
  _send_command command.

Record Circle : Type := {
  circle_id : string;
  circle_x : value;
  circle_y : value;
  circle_radius : value;
  circle_color : string
}.

Record Rectangle : Type := {
  rect_id : string;
  rect_x : value;
  rect_y : value;
  rect_width : value;
  rect_height : value;
  rect_color : string
}.

Definition default_color : string := "#000000".

(** [dataclasses.asdict] on the two shapes. *)
Definition asdict_circle (c : Circle) : value :=
  VDict [("id", VStr (circle_id c)); ("x", circle_x c); ("y", circle_y c);
         ("radius", circle_radius c); ("color", VStr (circle_color c))].

Definition asdict_rectangle (r : Rectangle) : value :=
  VDict [("id", VStr (rect_id r)); ("x", rect_x r); ("y", rect_y r);
         ("width", rect_width r); ("height", rect_height r);
         ("color", VStr (rect_color r))].

(** The guard every drawing and query operation starts with. *)
Definition require_file_path : M value :=
  a <- get_self ;;
  if truthy (file_path a) then ret (file_path a)
  else raise (Raise Exception no_file_path_msg).

(** An argument with a default: [None] when the caller leaves it out. *)
Definition or_default (color : option string) : string :=
  match color with
  | Some c => c
  | None => default_color
  end.

Definition draw_circle (id : string) (x y radius : value)
  (color : option string) : M value :=
  fp <- require_file_path ;;
  let circle := {| circle_id := id; circle_x := x; circle_y := y;
                   circle_radius := radius;
                   circle_color := or_default color |} in
  let command := VDict [("type", VStr "draw_circle"); ("file_path", fp);
                        ("data", asdict_circle circle)] in
  _send_command command.

Definition draw_rectangle (id : string) (x y width height : value)
  (color : option string) : M value :=
  fp <- require_file_path ;;
  let rectangle := {| rect_id := id; rect_x := x; rect_y := y;
                      rect_width := width; rect_height := height;
                      rect_color := or_default color |} in
  let command := VDict [("type", VStr "draw_rectangle"); ("file_path", fp);
                        ("data", asdict_rectangle rectangle)] in
  _send_command command.

Definition get_elements : M value :=
  fp <- require_file_path ;;
  let command := VDict [("type", VStr "get_elements"); ("file_path", fp)] in
  result <- _send_command command ;;
  ret (match result with
       | VList _ => result
       | _ => VList []
       end).

Definition get_element_by_id (id : string) : M value :=
  fp <- require_file_path ;;
  let command := VDict [("type", VStr "get_element_by_id"); ("file_path", fp);
                        ("data", VDict [("id", VStr id)])] in
  _send_command command.

(** [DrawingAPI.__init__]. *)
Definition __init__ : M unit :=
  set_self (fun _ => {| file_path := VNone; vscode_port := None; ws := None |}) ;;
  _discover_vscode_port.

(** The machine before the module is imported: nothing has happened. *)
Definition power_on : Machine :=
  {| self := {| file_path := VNone; vscode_port := None; ws := None |};
     clock := 0; next_sock := 0; trace := [] |}.

(** Any public operation, for statements about all of them and about
    sequences of calls. *)
Inductive operation : Type :=
| OpGetActiveFile
| OpSetFile (path : string)
| OpDrawCircle (id : string) (x y radius : value) (color : option string)
| OpDrawRectangle (id : string) (x y width height : value)
    (color : option string)
| OpGetElements
| OpGetElementById (id : string).

Definition call (o : operation) : M value :=
  match o with
  | OpGetActiveFile => get_active_file
  | OpSetFile path => set_file path
  | OpDrawCircle id x y radius color => draw_circle id x y radius color
  | OpDrawRectangle id x y width height color =>
      draw_rectangle id x y width height color
  | OpGetElements => get_elements
  | OpGetElementById id => get_element_by_id id
  end.

(** The operations guarded by the target check: all but the two that
    manage the target. *)
Definition needs_target (o : operation) : bool :=
  match o with
  | OpGetActiveFile | OpSetFile _ => false
  | _ => true
  end.

(** A caller that makes one call after the other and carries on whatever
    each call returns or raises. *)
Fixpoint run_calls (ops : list operation) (w : World) (m : Machine) : Machine :=
  match ops with
  | [] => m
  | o :: rest => run_calls rest w (snd (call o w m))
  end.

(** ** Reading traces *)

Definition is_network (e : event) : bool :=
  match e with
  | EvConnect _ _ | EvSend _ _ | EvRecv _ | EvClose _ => true
  | _ => false
  end.

(** The network events of a trace, in order. *)
Definition network (evs : list event) : list event := filter is_network evs.

(** The candidate files a trace probes, in order. *)
Fixpoint probed (evs : list event) : list Path :=
  match evs with
  | [] => []
  | EvExists p _ :: rest => p :: probed rest
  | _ :: rest => probed rest
  end.

(** Every discovery pass prints exactly one closing line: the port it
    found, or the warning that it found none. *)
Definition is_discovery_end (e : event) : bool :=
  match e with
  | EvPrint (LogDiscovered _) | EvPrint LogNoPortWarning => true
  | _ => false
  end.

Definition passes (evs : list event) : nat :=
  length (filter is_discovery_end evs).

Definition is_connect (e : event) : bool :=
  match e with
  | EvConnect _ _ => true
  | _ => false
  end.

Definition connect_attempts (evs : list event) : nat :=
  length (filter is_connect evs).

(** The event is a send, a receive or a close on socket [s]. *)
Definition on_sock (s : nat) (e : event) : bool :=
  match e with
  | EvSend s' _ | EvRecv s' | EvClose s' => Nat.eqb s' s
  | _ => false
  end.

Definition step_open (open : list nat) (e : event) : list nat :=
  match e with
  | EvConnect _ (Some s) => (open ++ [s])%list
  | EvClose s => filter (fun s' => negb (Nat.eqb s' s)) open
  | _ => open
  end.

(** The sockets a trace has opened and not closed. *)
Definition open_socks (evs : list event) : list nat :=
  fold_left step_open evs [].

(** The machine with its target replaced. *)
Definition retarget (v : value) (m : Machine) : Machine :=
  {| self := set_file_path v (self m); clock := clock m;
     next_sock := next_sock m; trace := trace m |}.

(** The target an operation works with once it is past its guard:
    [set_file] stores its argument first, the others keep what is there. *)
Definition target_before_send (o : operation) (m : Machine) : value :=
  match o with
  | OpSetFile path => VStr path
  | _ => file_path (self m)
  end.

(** The command envelope an operation builds when the target is [fp]. *)
Definition command_of (o : operation) (fp : value) : value :=
  match o with
  | OpGetActiveFile => VDict [("type", VStr "get_active_file")]
  | OpSetFile path =>
      VDict [("type", VStr "set_file"); ("file_path", VStr path)]
  | OpDrawCircle id x y radius color =>
      VDict [("type", VStr "draw_circle"); ("file_path", fp);
             ("data",
              asdict_circle
                {| circle_id := id; circle_x := x; circle_y := y;
                   circle_radius := radius;
                   circle_color := or_default color |})]
  | OpDrawRectangle id x y width height color =>
      VDict [("type", VStr "draw_rectangle"); ("file_path", fp);
             ("data",
              asdict_rectangle
                {| rect_id := id; rect_x := x; rect_y := y;
                   rect_width := width; rect_height := height;
                   rect_color := or_default color |})]
  | OpGetElements => VDict [("type", VStr "get_elements"); ("file_path", fp)]
  | OpGetElementById id =>
      VDict [("type", VStr "get_element_by_id"); ("file_path", fp);
             ("data", VDict [("id", VStr id)])]
  end.

(** An operation gets past its guard: it has none, or the target is set. *)
Definition passes_guard (o : operation) (m : Machine) : Prop :=
  needs_target o = false \/ truthy (file_path (self m)) = true.

(** The commands a trace sent, in order. *)
Fixpoint sent (evs : list event) : list value :=
  match evs with
  | [] => []
  | EvSend _ command :: rest => command :: sent rest
  | _ :: rest => sent rest
  end.

(** ** The first usable candidate, as the specification words it *)

(** What candidate [p] yields when probed at moment [t]: its port when the
    file exists and its text parses as an integer. *)
Definition usable_at (w : World) (t : nat) (p : Path) : option Z :=
  if path_exists w t p then
    match read_text w (S t) p with
    | FileText s => py_int s
    | FileIOError _ => None
    end
  else None.

(** Interactions spent on one candidate: the existence test, and the read
    when the file exists. *)
Definition probe_cost (w : World) (t : nat) (p : Path) : nat :=
  if path_exists w t p then 2%nat else 1%nat.

(** The first candidate, in list order, that exists and parses: its
    position and its port. Probing starts at moment [t]. *)
Fixpoint first_usable (w : World) (t : nat) (paths : list Path)
  : option (nat * Z) :=
  match paths with
  | [] => None
  | p :: rest =>
      match usable_at w t p with
      | Some n => Some (0%nat, n)
      | None =>
          match first_usable w (probe_cost w t p + t)%nat rest with
          | Some (k, n) => Some (S k, n)
          | None => None
          end
      end
  end.

(** The port a discovery pass leaves in the object when it starts at
    moment [t] with [old] stored. *)
Definition port_after_discovery (w : World) (t : nat) (old : option Z)
  : option Z :=
  match first_usable w t (possible_paths w) with
  | Some (_, n) => Some n
  | None => old
  end.

(** ** Well-formed machines *)

(** What holds of every machine the program can reach: a handle it holds
    is connected and is the only open socket; without a handle no socket
    is open. *)
Definition wf (m : Machine) : Prop :=
  match ws (self m) with
  | Some h =>
      connected h = true /\ open_socks (trace m) = [sock h] /\
      (sock h < next_sock m)%nat
  | None => open_socks (trace m) = []
  end.

(** [m'] comes from [m] by events [evs] that leave the network, the
    target and the handle alone. *)
Definition local_run (m m' : Machine) (evs : list event) : Prop :=
  trace m' = (trace m ++ evs)%list /\ network evs = [] /\
  file_path (self m') = file_path (self m) /\
  ws (self m') = ws (self m) /\ next_sock m' = next_sock m.

(** A computation is oblivious when replacing the target beforehand only
    replaces it afterwards: same outcome, same clock, same trace. *)
Definition oblivious {A} (c : M A) : Prop :=
  forall v w m,
    c w (retarget v m) = (fst (c w m), retarget v (snd (c w m))).

(** ** The API on arguments of any type *)

(** Python checks no annotation: where a signature says [str] a caller can
    hand over any value, and the method carries it into the envelope as it
    is. These are the same methods with nothing assumed of the arguments;
    on strings they are the ones above. *)
Module Untyped.

Definition set_file (path : value) : M value :=
  set_self (set_file_path path) ;;
  let command := VDict [("type", VStr "set_file"); ("file_path", path)] in
  _send_command command.

Definition draw_circle (id x y radius color : value) : M value :=
  fp <- require_file_path ;;
  let command :=
    VDict [("type", VStr "draw_circle"); ("file_path", fp);
           ("data", VDict [("id", id); ("x", x); ("y", y);
                           ("radius", radius); ("color", color)])] in
  _send_command command.

Definition draw_rectangle (id x y width height color : value) : M value :=
  fp <- require_file_path ;;
  let command :=
    VDict [("type", VStr "draw_rectangle"); ("file_path", fp);
           ("data", VDict [("id", id); ("x", x); ("y", y);
                           ("width", width); ("height", height);
                           ("color", color)])] in
  _send_command command.

Definition get_element_by_id (id : value) : M value :=
  fp <- require_file_path ;;
  let command := VDict [("type", VStr "get_element_by_id"); ("file_path", fp);
                        ("data", VDict [("id", id)])] in
  _send_command command.

End Untyped.

(** ** The tool functions *)

(** The functions of [tools/draw_circle.py], [tools/draw_rectangle.py],
    [tools/get_elements.py] and [tools/get_element_by_id.py]: each hands
    its arguments to the module's one [drawing_api] object. The colour is
    [None] when the caller leaves it out. *)
Module Tools.

Definition draw_circle (id x y radius : value) (color : option value)
  : M value :=
  Untyped.draw_circle id x y radius
    match color with
    | Some c => c
    | None => VStr "#000000"
    end.

Definition draw_rectangle (id x y width height : value)
  (color : option value) : M value :=
  Untyped.draw_rectangle id x y width height
    match color with
    | Some c => c
    | None => VStr "#000000"
    end.

Definition get_elements : M value := get_elements.

Definition get_element_by_id (id : value) : M value :=
  Untyped.get_element_by_id id.

End Tools.

(** ** The tool dispatcher *)

(** How a tool call ends: with the result that is then rendered as JSON
    text, with the [KeyError] of a missing argument, or with an exception
    out of the drawing API. *)
Inductive tool_outcome : Type :=
| ToolResult (result : value)
| ToolKeyError (key : string)
| ToolRaised (e : exn).

Definition T : Type := World -> Machine -> tool_outcome * Machine.

(** Runs an API call and hands its outcome on through [finish]. *)
Definition api (c : M value) (finish : value -> value) : T :=
  fun w m =>
    match c w m with
    | (Returned v, m') => (ToolResult (finish v), m')
    | (Raised e, m') => (ToolRaised e, m')
    end.

(** [arguments[key]], then the rest; a missing key ends the call. *)
Definition subscript (arguments : list (string * value)) (key : string)
  (k : value -> T) : T :=
  match dict_lookup arguments key with
  | Some v => k v
  | None => fun _ m => (ToolKeyError key, m)
  end.

(** [call_tool] of [mcp_server/main.py], up to the rendering of the
    result: the text it returns is [json.dumps] of the result here. *)
Definition call_tool (name : string) (arguments : list (string * value)) : T :=
  if String.eqb name "get_active_file" then
    api get_active_file (fun result => result)
  else if String.eqb name "set_file" then
    subscript arguments "file_path" (fun path =>
    api (Untyped.set_file path)
      (fun _ => VDict [("status", VStr "success"); ("file_path", path)]))
  else if String.eqb name "draw_circle" then
    subscript arguments "id" (fun id =>
    subscript arguments "x" (fun x =>
    subscript arguments "y" (fun y =>
    subscript arguments "radius" (fun radius =>
    api (Tools.draw_circle id x y radius
           (Some (dict_get arguments "color" (VStr "#000000"))))
      (fun result => result)))))
  else if String.eqb name "draw_rectangle" then
    subscript arguments "id" (fun id =>
    subscript arguments "x" (fun x =>
    subscript arguments "y" (fun y =>
    subscript arguments "width" (fun width =>
    subscript arguments "height" (fun height =>
    api (Tools.draw_rectangle id x y width height
           (Some (dict_get arguments "color" (VStr "#000000"))))
      (fun result => result))))))
  else if String.eqb name "get_elements" then
    api Tools.get_elements (fun result => result)
  else if String.eqb name "get_element_by_id" then
    subscript arguments "id" (fun id =>
    api (Tools.get_element_by_id id) (fun result => result))
  else fun _ m => (ToolResult VNone, m).

(** The name under which an operation is offered as a tool. *)
Definition tool_name (o : operation) : string :=
  match o with
  | OpGetActiveFile => "get_active_file"
  | OpSetFile _ => "set_file"
  | OpDrawCircle _ _ _ _ _ => "draw_circle"
  | OpDrawRectangle _ _ _ _ _ _ => "draw_rectangle"
  | OpGetElements => "get_elements"
  | OpGetElementById _ => "get_element_by_id"
  end.

(** The colour entry of an arguments dict, when the caller gives one. *)
Definition color_entry (color : option string) : list (string * value) :=
  match color with
  | Some c => [("color", VStr c)]
  | None => []
  end.

(** The arguments dict that asks for operation [o]. *)
Definition tool_arguments (o : operation) : list (string * value) :=
  match o with
  | OpGetActiveFile => []
  | OpSetFile path => [("file_path", VStr path)]
  | OpDrawCircle id x y radius color =>
      ([("id", VStr id); ("x", x); ("y", y); ("radius", radius)]
       ++ color_entry color)%list
  | OpDrawRectangle id x y width height color =>
      ([("id", VStr id); ("x", x); ("y", y); ("width", width);
        ("height", height)] ++ color_entry color)%list
  | OpGetElements => []
  | OpGetElementById id => [("id", VStr id)]
  end.

(** The keys [call_tool] subscripts for a tool, in the order it does. *)
Definition required_keys (name : string) : list string :=
  if String.eqb name "set_file" then ["file_path"]
  else if String.eqb name "draw_circle" then ["id"; "x"; "y"; "radius"]
  else if String.eqb name "draw_rectangle" then
    ["id"; "x"; "y"; "width"; "height"]
  else if String.eqb name "get_element_by_id" then ["id"]
  else [].

(** The first of [keys] that [arguments] lacks. *)
Fixpoint first_missing (arguments : list (string * value))
  (keys : list string) : option string :=
  match keys with
  | [] => None
  | key :: rest =>
      match dict_lookup arguments key with
      | Some _ => first_missing arguments rest
      | None => Some key
      end
  end.

(** The operations that hand the result of their send on as it is. *)
Definition plain_result (o : operation) : bool :=
  match o with
  | OpGetActiveFile | OpGetElements => false
  | _ => true
  end.

(** ** Sample worlds *)

Fixpoint path_eqb (p q : Path) : bool :=
  match p, q with
  | [], [] => true
  | a :: p', b :: q' => String.eqb a b && path_eqb p' q'
  | _, _ => false
  end.

Definition tmp_port_file : Path := path_join ["/tmp"] "luke_editor_mcp_port.txt".

(** Enough of [str] for the samples. *)
Definition sample_str (v : value) : string :=
  match v with
  | VNone => "None"
  | VBool true => "True"
  | VBool false => "False"
  | _ => type_name v
  end.

(** A machine with one user, whose editor writes port [9931] in the file
    under [/tmp]. The file is there before moment [gone] ([None]: always);
    [connect], [send] and [reply] say how the network answers at each
    moment. *)
Definition sample_world (gone : option nat)
  (connect : nat -> option string) (send : nat -> option string)
  (reply : nat -> recv_result) : World :=
  {| home := ["/home"; "luke"];
     path_exists := fun t p =>
       path_eqb p tmp_port_file &&
       match gone with
       | Some u => (t <? u)%nat
       | None => true
       end;
     read_text := fun _ _ => FileText "9931";
     create_connection := fun t _ => connect t;
     ws_send := fun t _ _ => send t;
     ws_recv := fun t _ => reply t;
     py_str := sample_str |}.

(** The editor runs and answers every command with [response]. *)
Definition running_editor (response : value) : World :=
  sample_world None (fun _ => None) (fun _ => None)
    (fun _ => RecvDecoded response).

(** No editor has ever run: there is no port file and nobody listens. *)
Definition no_editor : World :=
  sample_world (Some 0%nat) (fun _ => Some "Connection refused")
    (fun _ => Some "Broken pipe") (fun _ => RecvFault "Connection lost").

(** The editor ran while the module was imported and has stopped since:
    its port file is gone from moment [4] on and nobody listens. *)
Definition stopped_editor : World :=
  sample_world (Some 4%nat) (fun _ => Some "Connection refused")
    (fun _ => Some "Broken pipe") (fun _ => RecvFault "Connection lost").

(** The editor runs, but the send made at moment [9] breaks. *)
Definition flaky_editor (response : value) : World :=
  sample_world None (fun _ => None)
    (fun t => if (t =? 9)%nat then Some "Broken pipe" else None)
    (fun _ => RecvDecoded response).

Definition ack : value :=
  VDict [("success", VBool true);
         ("result", VDict [("status", VStr "success")])].

Definition duplicate_id : value :=
  VDict [("success", VBool false); ("error", VStr "duplicate id")].

(** The editor acknowledges what it is sent before moment [11] and
    rejects everything after as a duplicate. *)
Definition rejecting_editor : World :=
  sample_world None (fun _ => None) (fun _ => None)
    (fun t => RecvDecoded (if (t <? 11)%nat then ack else duplicate_id)).

(** Modelled from the spec: the editor's handler of [get_element_by_id],
    which runs in the editor process and is not among the Python sources.
    The specification has a response carry [success] and [result], and has
    a lookup of an unknown id be no error but an explicit absent result:
    the handler answers with success and the element, or with success and
    [null]. [scene] maps the ids drawn so far to their elements. *)
Definition editor_get_element_by_id (scene : list (string * value))
  (id : string) : value :=
  VDict [("success", VBool true);
         ("result",
          match dict_lookup scene id with
          | Some element => element
          | None => VNone
          end)].

(** A file system does not change while the program runs. *)
Definition steady (w : World) : Prop :=
  forall t t' p,
    path_exists w t p = path_exists w t' p /\
    read_text w t p = read_text w t' p.

(** The machine once the module is imported in world [w]. *)
Definition imported (w : World) : Machine := snd (__init__ w power_on).

(** The editor's port file holds [0]; everything else works. *)
Definition zero_port_editor : World :=
  {| home := ["/home"; "luke"];
     path_exists := fun _ p => path_eqb p tmp_port_file;
     read_text := fun _ _ => FileText "0";
     create_connection := fun _ _ => None;
     ws_send := fun _ _ _ => None;
     ws_recv := fun _ _ => RecvDecoded ack;
     py_str := sample_str |}.

(** The editor runs but what it answers is not JSON. *)
Definition garbling_editor : World :=
  sample_world None (fun _ => None) (fun _ => None)
    (fun _ => RecvUndecodable "Expecting value: line 1 column 1 (char 0)").

(** The active file as the editor reports it. *)
Definition active_file (path : string) : value :=
  VDict [("success", VBool true);
         ("result", VDict [("file_path", VStr path)])].

(** The machine once the module is imported in [w] and the calls [ops]
    have been made. *)
Definition after_calls (w : World) (ops : list operation) : Machine :=
  run_calls ops w (imported w).

(** The machine after an exchange that took [ticks] answers from the world
    and left [evs] in the trace; the handle is kept or dropped. *)
Definition exchanged (m : Machine) (keep : bool) (ticks : nat)
  (evs : list event) : Machine :=
  {| self := if keep then self m else set_ws None (self m);
     clock := (ticks + clock m)%nat;
     next_sock := next_sock m;
     trace := (trace m ++ evs)%list |}.

(** * Properties *)

(** ** Traces *)

Lemma network_app (a b : list event) :
  network (a ++ b) = (network a ++ network b)%list.
Proof. unfold network. apply filter_app. Qed.

Lemma passes_app (a b : list event) : passes (a ++ b) = (passes a + passes b)%nat.
Proof. unfold passes. rewrite filter_app, length_app. reflexivity. Qed.

Lemma connect_attempts_app (a b : list event) :
  connect_attempts (a ++ b) = (connect_attempts a + connect_attempts b)%nat.
Proof. unfold connect_attempts. rewrite filter_app, length_app. reflexivity. Qed.

Lemma probed_app (a b : list event) :
  probed (a ++ b) = (probed a ++ probed b)%list.
Proof.
  induction a as [|e a IH]; simpl; [reflexivity|].
  destruct e; simpl; rewrite IH; reflexivity.
Qed.

Lemma step_open_local (e : event) (o : list nat) :
  is_network e = false -> step_open o e = o.
Proof. destruct e; simpl; intros H; try reflexivity; discriminate. Qed.

Lemma fold_open_network (evs : list event) : forall o,
  fold_left step_open evs o = fold_left step_open (network evs) o.
Proof.
  induction evs as [|e evs IH]; intros o; simpl; [reflexivity|].
  destruct (is_network e) eqn:E; simpl.
  - apply IH.
  - rewrite step_open_local by assumption. apply IH.
Qed.

Lemma open_socks_app (tr evs : list event) :
  open_socks (tr ++ evs) = fold_left step_open (network evs) (open_socks tr).
Proof.
  unfold open_socks. rewrite fold_left_app. apply fold_open_network.
Qed.

Lemma connect_attempts_network (evs : list event) :
  connect_attempts (network evs) = connect_attempts evs.
Proof.
  unfold connect_attempts, network.
  induction evs as [|e evs IH]; simpl; [reflexivity|].
  destruct e; simpl; auto.
Qed.

(** ** Discovery *)

(** One candidate was probed without success, leaving events [pre]; the
    rest of the loop is covered by the induction hypothesis [IH]. *)
Ltac skip_candidate IH w pre :=
  let b := fresh "b" in
  let m' := fresh "m'" in
  let evs := fresh "evs" in
  let Hrun := fresh "Hrun" in
  let Hloc := fresh "Hloc" in
  let Hres := fresh "Hres" in
  cbn;
  match goal with
  | |- context [discover_loop _ w ?m1] =>
      destruct (IH w m1) as (b & m' & evs & Hrun & Hloc & Hres)
  end;
  rewrite Hrun; cbn in Hres;
  exists b, m', (pre ++ evs)%list;
  split; [reflexivity|]; split;
  [ destruct Hloc as (Ht & Hn & Hf & Hw & Hs); cbn in *;
    unfold local_run; rewrite Ht, <- !app_assoc; cbn; repeat split; auto
  | match type of Hres with
    | match ?fu with _ => _ end => destruct fu as [[k n]|]
    end;
    [ destruct Hres as (-> & Hp & Hpr & evs0 & -> & Hz);
      repeat split; auto;
      [ cbn; rewrite Hpr; reflexivity
      | eexists; split; [rewrite app_assoc; reflexivity|];
        rewrite passes_app, Hz; reflexivity ]
    | destruct Hres as (-> & Hp & Hpr & Hz);
      repeat split; auto; cbn; rewrite Hpr; reflexivity ] ].

Lemma discover_loop_run (paths : list Path) : forall w m,
  exists b m' evs,
    discover_loop paths w m = (Returned b, m') /\
    local_run m m' evs /\
    match first_usable w (clock m) paths with
    | Some (k, n) =>
        b = true /\ vscode_port (self m') = Some n /\
        probed evs = firstn (S k) paths /\
        exists evs0, evs = (evs0 ++ [EvPrint (LogDiscovered n)])%list /\
                     passes evs0 = 0%nat
    | None =>
        b = false /\ vscode_port (self m') = vscode_port (self m) /\
        probed evs = paths /\ passes evs = 0%nat
    end.
Proof.
  induction paths as [|p rest IH]; intros w m.
  - exists false, m, []. cbn. unfold local_run. rewrite app_nil_r. auto 10.
  - cbn [discover_loop first_usable]. unfold usable_at, probe_cost.
    unfold bind at 1. unfold ask at 1. cbn [clock].
    destruct (path_exists w (clock m) p) eqn:Ex.
    + unfold bind, emit, ask, set_self, print, emit, ret. cbn.
      destruct (read_text w (S (clock m)) p) as [s|msg] eqn:Rd.
      * destruct (py_int s) as [n|] eqn:Pi.
        -- cbn. eexists _, _, _. split; [reflexivity|]. split.
           ++ unfold local_run. cbn. rewrite <- !app_assoc. cbn. auto.
           ++ cbn. repeat split; auto.
              exists [EvExists p true; EvRead p]. split; reflexivity.
        -- skip_candidate IH w
             [EvExists p true; EvRead p;
              EvPrint (LogReadError p (NotAnInteger s))].
      * skip_candidate IH w
          [EvExists p true; EvRead p;
           EvPrint (LogReadError p (IOFailure msg))].
    + unfold bind, emit, ret. skip_candidate IH w [EvExists p false].
Qed.

Lemma discover_run (w : World) (m : Machine) :
  exists m' evs,
    _discover_vscode_port w m = (Returned tt, m') /\
    local_run m m' evs /\ passes evs = 1%nat /\
    vscode_port (self m') =
      port_after_discovery w (clock m) (vscode_port (self m)) /\
    match first_usable w (clock m) (possible_paths w) with
    | Some (k, n) =>
        probed evs = firstn (S k) (possible_paths w) /\
        exists evs0, evs = (evs0 ++ [EvPrint (LogDiscovered n)])%list
    | None =>
        probed evs = possible_paths w /\
        exists evs0, evs = (evs0 ++ [EvPrint LogNoPortWarning])%list
    end.
Proof.
  unfold _discover_vscode_port, port_after_discovery, bind.
  destruct (discover_loop_run (possible_paths w) w m)
    as (b & m' & evs & Hrun & Hloc & Hres).
  rewrite Hrun.
  destruct (first_usable w (clock m) (possible_paths w)) as [[k n]|].
  - destruct Hres as (-> & Hp & Hpr & evs0 & -> & Hz).
    exists m', (evs0 ++ [EvPrint (LogDiscovered n)])%list.
    repeat split; try apply Hloc; auto.
    + rewrite passes_app, Hz. reflexivity.
    + eauto.
  - destruct Hres as (-> & Hp & Hpr & Hz).
    destruct Hloc as (Ht & Hn & Hf & Hw & Hs).
    eexists _, (evs ++ [EvPrint LogNoPortWarning])%list.
    split; [reflexivity|]. unfold local_run. cbn.
    rewrite Ht, <- app_assoc, network_app, Hn, passes_app, Hz, probed_app, Hpr.
    cbn. rewrite ?app_nil_r. repeat split; eauto.
Qed.

(** ** The session *)

Lemma port_truthy_some (p : option Z) :
  port_truthy p = true <-> exists n, p = Some n /\ n <> 0.
Proof.
  destruct p as [n|]; simpl.
  - rewrite negb_true_iff, Z.eqb_neq. split.
    + intros H. exists n. auto.
    + intros (n' & [= <-] & H). exact H.
  - split; [discriminate|]. intros (n & H & _). discriminate.
Qed.

Lemma connect_run (w : World) (m : Machine) (port : Z) :
  vscode_port (self m) = Some port -> port <> 0 ->
  exists m' evs,
    _connect w m = (Returned tt, m') /\
    trace m' = (trace m ++ evs)%list /\ passes evs = 0%nat /\
    file_path (self m') = file_path (self m) /\
    vscode_port (self m') = Some port /\
    clock m' = S (clock m) /\
    match create_connection w (clock m) port with
    | None =>
        ws (self m') = Some {| sock := next_sock m; connected := true |} /\
        next_sock m' = S (next_sock m) /\
        network evs = [EvConnect port (Some (next_sock m))]
    | Some msg =>
        ws (self m') = None /\ next_sock m' = next_sock m /\
        network evs = [EvConnect port None]
    end.
Proof.
  intros Hport Hnz.
  assert (Ht : port_truthy (Some port) = true)
    by (apply port_truthy_some; eauto).
  unfold _connect, bind, get_self. rewrite Hport, Ht.
  unfold ret. cbn [self]. rewrite Hport, Ht.
  unfold ask, fresh_sock, emit, set_self, print, emit. cbn.
  destruct (create_connection w (clock m) port) as [msg|]; cbn;
    eexists _, _; (split; [reflexivity|]); cbn;
    rewrite <- ?app_assoc; cbn; repeat split; auto.
Qed.

Lemma ensure_connected_live (w : World) (m : Machine) :
  ws_live (ws (self m)) = true -> _ensure_connected w m = (Returned tt, m).
Proof.
  intros H. unfold _ensure_connected, bind, get_self. rewrite H. reflexivity.
Qed.

(** Without a live handle [_ensure_connected] makes one discovery pass and
    then ends in one of three ways: no port, a refused connection, or a
    fresh handle. *)
Lemma ensure_connected_run (w : World) (m : Machine) :
  ws_live (ws (self m)) = false ->
  exists r m' evs,
    _ensure_connected w m = (r, m') /\
    trace m' = (trace m ++ evs)%list /\ passes evs = 1%nat /\
    file_path (self m') = file_path (self m) /\
    vscode_port (self m') =
      port_after_discovery w (clock m) (vscode_port (self m)) /\
    ((r = Raised (Raise Exception server_not_found_msg) /\
      network evs = [] /\ ws (self m') = ws (self m) /\
      next_sock m' = next_sock m /\
      port_truthy (vscode_port (self m')) = false)
     \/
     (exists port,
        r = Raised (Raise Exception connect_failed_msg) /\
        network evs = [EvConnect port None] /\ ws (self m') = None /\
        next_sock m' = next_sock m /\
        vscode_port (self m') = Some port /\ port <> 0)
     \/
     (exists port,
        r = Returned tt /\
        network evs = [EvConnect port (Some (next_sock m))] /\
        ws (self m') = Some {| sock := next_sock m; connected := true |} /\
        next_sock m' = S (next_sock m) /\
        vscode_port (self m') = Some port /\ port <> 0)).
Proof.
  intros Hdead. unfold _ensure_connected.
  unfold bind at 1. unfold get_self at 1. rewrite Hdead.
  unfold bind at 1.
  destruct (discover_run w m)
    as (m1 & evs1 & Hrun & (Ht1 & Hn1 & Hf1 & Hw1 & Hs1) & Hp1 & Hport & _).
  rewrite Hrun. unfold bind at 1. unfold get_self at 1.
  destruct (port_truthy (vscode_port (self m1))) eqn:Htr.
  - apply port_truthy_some in Htr as Hsome.
    destruct Hsome as (port & Hsome & Hnz).
    destruct (connect_run w m1 port Hsome Hnz)
      as (m2 & evs2 & Hrun2 & Ht2 & Hp2 & Hf2 & Hport2 & _ & Hconn).
    unfold bind at 1. rewrite Hrun2. unfold bind, get_self.
    rewrite Hs1 in Hconn.
    destruct (create_connection w (clock m1) port) as [msg|].
    + destruct Hconn as (Hws & Hns & Hnet). rewrite Hws. cbn.
      eexists _, m2, (evs1 ++ evs2)%list. split; [reflexivity|].
      rewrite Ht2, Ht1, <- app_assoc, passes_app, Hp1, Hp2, network_app,
        Hn1, Hnet, Hf2, Hf1, Hport2, <- Hport, Hns, Hws.
      repeat split; auto. right; left. exists port. auto 10.
    + destruct Hconn as (Hws & Hns & Hnet). rewrite Hws. cbn.
      eexists _, m2, (evs1 ++ evs2)%list. split; [reflexivity|].
      rewrite Ht2, Ht1, <- app_assoc, passes_app, Hp1, Hp2, network_app,
        Hn1, Hnet, Hf2, Hf1, Hport2, <- Hport, Hns, Hws.
      repeat split; auto. right; right. exists port. auto 10.
  - unfold raise. eexists _, m1, evs1. split; [reflexivity|].
    repeat split; auto. left. auto 10.
Qed.

(** The [try] body talks to the socket it holds and to nothing else, and
    leaves the object as it was. *)
Lemma exchange_run (w : World) (m : Machine) (h : WebSocket) (command : value) :
  ws (self m) = Some h ->
  exists r m' evs,
    exchange command w m = (r, m') /\
    self m' = self m /\ next_sock m' = next_sock m /\
    trace m' = (trace m ++ evs)%list /\
    (evs = [EvSend (sock h) command] \/
     evs = [EvSend (sock h) command; EvRecv (sock h)]).
Proof.
  intros Hws. unfold exchange, bind, get_self. rewrite Hws.
  unfold emit, ask. cbn.
  destruct (ws_send w (clock m) (sock h) command) as [msg|].
  - unfold raise. eexists _, _, _. split; [reflexivity|]. cbn. auto.
  - cbn. rewrite <- app_assoc. cbn.
    destruct (ws_recv w (S (clock m)) (sock h)) as [msg|msg|response];
      try (unfold raise; eexists _, _, _; split; [reflexivity|]; cbn;
           auto; fail).
    destruct response; unfold value_get, raise, ret;
      try (eexists _, _, _; split; [reflexivity|]; cbn; auto; fail).
    destruct (truthy (dict_get d "success" VNone));
      eexists _, _, _; (split; [reflexivity|]); cbn; auto.
Qed.

(** The [except] clause closes the handle it finds, drops it and raises. *)
Lemma teardown_run (w : World) (m : Machine) (e : exn) :
  exists m',
    teardown e w m =
      (Raised (Raise Exception (communicate_prefix ++ exn_msg e)), m') /\
    file_path (self m') = file_path (self m) /\
    vscode_port (self m') = vscode_port (self m) /\
    ws (self m') = None /\ next_sock m' = next_sock m /\
    trace m' = (trace m ++
                match ws (self m) with
                | Some h => [EvClose (sock h)]
                | None => []
                end)%list.
Proof.
  unfold teardown, bind, get_self.
  destruct (ws (self m)) as [h|]; unfold emit, ret, set_self, raise; cbn;
    eexists; (split; [reflexivity|]); cbn; rewrite ?app_nil_r; auto.
Qed.

(** ** One handle at a time *)

Lemma ws_live_wf (m : Machine) :
  wf m -> ws_live (ws (self m)) = false -> ws (self m) = None.
Proof.
  unfold wf, ws_live. destruct (ws (self m)) as [h|]; [|reflexivity].
  intros (Hc & _) Hd. congruence.
Qed.

Lemma try_exchange_wf (w : World) (m : Machine) (h : WebSocket)
  (command : value) :
  wf m -> ws (self m) = Some h ->
  wf (snd (try_except (exchange command) teardown w m)).
Proof.
  intros Hwf Hws. unfold try_except.
  destruct (exchange_run w m h command Hws)
    as (r & m1 & evs & Hrun & Hself & Hns & Ht & Hevs).
  rewrite Hrun. unfold wf in Hwf. rewrite Hws in Hwf.
  destruct Hwf as (Hc & Hopen & Hlt).
  assert (Hopen1 : open_socks (trace m1) = [sock h]).
  { rewrite Ht, open_socks_app, Hopen.
    destruct Hevs as [-> | ->]; reflexivity. }
  destruct r as [v|e]; cbv beta iota.
  - cbn [snd]. unfold wf. rewrite Hself, Hws, Hns. auto.
  - destruct (teardown_run w m1 e) as (m2 & Hrun2 & _ & _ & Hws2 & _ & Ht2).
    rewrite Hrun2. cbn. unfold wf. rewrite Hws2, Ht2, Hself, Hws.
    rewrite open_socks_app, Hopen1. cbn. rewrite Nat.eqb_refl. reflexivity.
Qed.

Lemma ensure_connected_wf (w : World) (m : Machine) :
  wf m -> wf (snd (_ensure_connected w m)).
Proof.
  intros Hwf. destruct (ws_live (ws (self m))) eqn:Hl.
  - rewrite ensure_connected_live by assumption. exact Hwf.
  - pose proof (ws_live_wf m Hwf Hl) as Hnone.
    destruct (ensure_connected_run w m Hl)
      as (r & m' & evs & Hrun & Ht & _ & _ & _ & Hcases).
    rewrite Hrun. cbn. unfold wf in *. rewrite Hnone in Hwf.
    destruct Hcases as [(_ & Hn & Hws & _) | [(port & _ & Hn & Hws & _)
                       | (port & _ & Hn & Hws & Hns & _)]];
      rewrite Hws, ?Hnone, Ht, open_socks_app, Hn, Hwf; cbn; auto.
    rewrite Hns. auto.
Qed.

Lemma ensure_connected_returns (w : World) (m m' : Machine) :
  _ensure_connected w m = (Returned tt, m') ->
  exists h, ws (self m') = Some h /\ connected h = true.
Proof.
  intros Hrun. destruct (ws_live (ws (self m))) eqn:Hl.
  - rewrite ensure_connected_live in Hrun by assumption.
    injection Hrun as <-. unfold ws_live in Hl.
    destruct (ws (self m)) as [h|]; [eauto | discriminate].
  - destruct (ensure_connected_run w m Hl)
      as (r & m1 & evs & Hrun1 & _ & _ & _ & _ & Hcases).
    rewrite Hrun in Hrun1. injection Hrun1 as <- <-.
    destruct Hcases as [(Hr & _) | [(port & Hr & _) | (port & _ & _ & Hws & _)]];
      try discriminate.
    eauto.
Qed.

Lemma send_command_wf (w : World) (m : Machine) (command : value) :
  wf m -> wf (snd (_send_command command w m)).
Proof.
  intros Hwf. unfold _send_command, bind.
  pose proof (ensure_connected_wf w m Hwf) as Hwf1.
  destruct (_ensure_connected w m) as [[[]|e] m1] eqn:Hrun; cbn in Hwf1.
  - destruct (ensure_connected_returns w m m1 Hrun) as (h & Hws & _).
    apply try_exchange_wf with (h := h); assumption.
  - exact Hwf1.
Qed.

(** [wf] does not look at the target. *)
Lemma wf_session (m m' : Machine) :
  ws (self m') = ws (self m) -> trace m' = trace m ->
  next_sock m' = next_sock m -> wf m -> wf m'.
Proof. unfold wf. intros -> -> ->. auto. Qed.

(** The guard either raises on the spot or hands the target over. *)
Lemma require_file_path_run (w : World) (m : Machine) :
  require_file_path w m =
    if truthy (file_path (self m)) then (Returned (file_path (self m)), m)
    else (Raised (Raise Exception no_file_path_msg), m).
Proof.
  unfold require_file_path, bind, get_self.
  destruct (truthy (file_path (self m))); reflexivity.
Qed.

(** An operation that gets past its guard is one [_send_command], run on a
    machine with the same session, and what follows the send leaves the
    session alone. *)
Lemma call_send (o : operation) (w : World) (m : Machine) :
  needs_target o = false \/ truthy (file_path (self m)) = true ->
  exists command m0,
    ws (self m0) = ws (self m) /\ vscode_port (self m0) = vscode_port (self m) /\
    trace m0 = trace m /\ next_sock m0 = next_sock m /\ clock m0 = clock m /\
    let m1 := snd (_send_command command w m0) in
    let m2 := snd (call o w m) in
    ws (self m2) = ws (self m1) /\
    vscode_port (self m2) = vscode_port (self m1) /\
    trace m2 = trace m1 /\ next_sock m2 = next_sock m1 /\ clock m2 = clock m1.
Proof.
  intros Hguard.
  destruct o; cbn [call needs_target] in *;
    try (destruct Hguard as [Hguard|Hguard]; [discriminate|]).
  - (* get_active_file *)
    exists (VDict [("type", VStr "get_active_file")]), m.
    repeat (split; [reflexivity|]).
    unfold get_active_file, bind.
    destruct (_send_command _ w m) as [[result|e] m1]; cbn; auto.
    destruct result as [| | | | | |d]; cbn; auto.
    destruct (truthy (dict_get d "file_path" VNone)); cbn; auto.
  - (* set_file *)
    exists (VDict [("type", VStr "set_file"); ("file_path", VStr path)]),
      {| self := set_file_path (VStr path) (self m); clock := clock m;
         next_sock := next_sock m; trace := trace m |}.
    unfold set_file, bind, set_self. cbn. auto 10.
  - unfold draw_circle, bind. rewrite require_file_path_run, Hguard.
    eexists _, m. auto 10.
  - unfold draw_rectangle, bind. rewrite require_file_path_run, Hguard.
    eexists _, m. auto 10.
  - unfold get_elements, bind. rewrite require_file_path_run, Hguard.
    exists (VDict [("type", VStr "get_elements");
                   ("file_path", file_path (self m))]), m.
    repeat (split; [reflexivity|]). cbv beta iota.
    destruct (_send_command _ w m) as [[result|e] m1]; cbn; auto.
  - unfold get_element_by_id, bind. rewrite require_file_path_run, Hguard.
    eexists _, m. auto 10.
Qed.

(** An operation stopped by its guard raises and touches nothing. *)
Lemma call_guarded (o : operation) (w : World) (m : Machine) :
  needs_target o = true -> truthy (file_path (self m)) = false ->
  call o w m = (Raised (Raise Exception no_file_path_msg), m).
Proof.
  intros Hneeds Hunset.
  destruct o; try discriminate; cbn [call];
    unfold draw_circle, draw_rectangle, get_elements, get_element_by_id;
    unfold bind at 1; rewrite require_file_path_run, Hunset; reflexivity.
Qed.

Lemma call_wf (o : operation) (w : World) (m : Machine) :
  wf m -> wf (snd (call o w m)).
Proof.
  intros Hwf.
  destruct (needs_target o) eqn:Hneeds;
    [destruct (truthy (file_path (self m))) eqn:Hfp|].
  - destruct (call_send o w m (or_intror Hfp))
      as (c & m0 & Hws & _ & Ht & Hns & _ & Hws2 & _ & Ht2 & Hns2 & _).
    eapply wf_session; [exact Hws2 | exact Ht2 | exact Hns2 |].
    apply send_command_wf. eapply wf_session; eauto.
  - rewrite call_guarded by assumption. exact Hwf.
  - destruct (call_send o w m (or_introl Hneeds))
      as (c & m0 & Hws & _ & Ht & Hns & _ & Hws2 & _ & Ht2 & Hns2 & _).
    eapply wf_session; [exact Hws2 | exact Ht2 | exact Hns2 |].
    apply send_command_wf. eapply wf_session; eauto.
Qed.

Lemma init_wf (w : World) : wf (snd (__init__ w power_on)).
Proof.
  unfold __init__, bind, set_self. cbn [power_on self clock next_sock trace].
  match goal with |- context [_discover_vscode_port w ?m0] =>
    destruct (discover_run w m0)
      as (m1 & evs & Hrun & (Ht & Hn & _ & Hws & _) & _) end.
  rewrite Hrun. cbn in *. unfold wf. rewrite Hws, Ht.
  unfold open_socks. rewrite fold_open_network, Hn. reflexivity.
Qed.

Lemma run_calls_wf (ops : list operation) (w : World) : forall m,
  wf m -> wf (run_calls ops w m).
Proof.
  induction ops as [|o rest IH]; intros m Hwf; cbn; [exact Hwf|].
  apply IH, call_wf, Hwf.
Qed.

Lemma wf_open_le_1 (m : Machine) :
  wf m -> (length (open_socks (trace m)) <= 1)%nat.
Proof.
  unfold wf. destruct (ws (self m)) as [h|].
  - intros (_ & -> & _). cbn. lia.
  - intros ->. cbn. lia.
Qed.

(** ** The target does not steer the session *)

Lemma retarget_same (m : Machine) : retarget (file_path (self m)) m = m.
Proof. destruct m as [[fp port h] t n tr]. reflexivity. Qed.

Lemma oblivious_ret {A} (a : A) : oblivious (ret a).
Proof. intros v w m. reflexivity. Qed.

Lemma oblivious_raise {A} (e : exn) : oblivious (@raise A e).
Proof. intros v w m. reflexivity. Qed.

Lemma oblivious_emit (e : event) : oblivious (emit e).
Proof. intros v w m. reflexivity. Qed.

Lemma oblivious_ask {A} (q : World -> nat -> A) : oblivious (ask q).
Proof. intros v w m. reflexivity. Qed.

Lemma oblivious_fresh_sock : oblivious fresh_sock.
Proof. intros v w m. reflexivity. Qed.

Lemma oblivious_set_port (p : option Z) :
  oblivious (set_self (set_vscode_port p)).
Proof. intros v w m. reflexivity. Qed.

Lemma oblivious_set_ws (h : option WebSocket) : oblivious (set_self (set_ws h)).
Proof. intros v w m. reflexivity. Qed.

Lemma oblivious_bind {A B} (c : M A) (k : A -> M B) :
  oblivious c -> (forall a, oblivious (k a)) -> oblivious (bind c k).
Proof.
  intros Hc Hk v w m. unfold bind. rewrite Hc.
  destruct (c w m) as [[a|e] m1]; cbn [fst snd]; [apply Hk | reflexivity].
Qed.

(** Reading the object is harmless when what is done next looks at the
    port and the handle only. *)
Lemma oblivious_read_self {B} (k : DrawingAPI -> M B) :
  (forall a v, k (set_file_path v a) = k a) ->
  (forall a, oblivious (k a)) -> oblivious (bind get_self k).
Proof.
  intros Hsame Hk v w m. unfold bind, get_self.
  cbn [retarget self]. rewrite Hsame. apply Hk.
Qed.

Lemma oblivious_try {A} (c : M A) (h : exn -> M A) :
  oblivious c -> (forall e, oblivious (h e)) -> oblivious (try_except c h).
Proof.
  intros Hc Hh v w m. unfold try_except. rewrite Hc.
  destruct (c w m) as [[a|e] m1]; cbn [fst snd]; [reflexivity | apply Hh].
Qed.

Create HintDb oblivious.
#[local] Hint Resolve oblivious_ret oblivious_raise oblivious_emit
  oblivious_ask oblivious_fresh_sock oblivious_set_port oblivious_set_ws
  : oblivious.

(** Splits an oblivious goal along binds and branches. *)
Ltac oblivious_step :=
  match goal with
  | |- oblivious (bind get_self _) =>
      apply oblivious_read_self; [intros; reflexivity | intros]
  | |- oblivious (bind _ _) => apply oblivious_bind; [| intros]
  | |- oblivious (try_except _ _) => apply oblivious_try; [| intros]
  | |- oblivious (print _) => unfold print
  | |- oblivious (if ?b then _ else _) => destruct b
  | |- oblivious (match ?x with _ => _ end) => destruct x
  | |- oblivious _ => solve [auto with oblivious]
  end.

Lemma oblivious_discover_loop (paths : list Path) :
  oblivious (discover_loop paths).
Proof.
  induction paths as [|p rest IH]; cbn [discover_loop];
    repeat oblivious_step; exact IH.
Qed.

Lemma oblivious_discover : oblivious _discover_vscode_port.
Proof.
  intros v w m. unfold _discover_vscode_port.
  apply oblivious_bind; [apply oblivious_discover_loop|].
  intros [|]; unfold print; auto with oblivious.
Qed.

Lemma oblivious_connect : oblivious _connect.
Proof.
  unfold _connect. pose proof oblivious_discover.
  repeat oblivious_step; assumption.
Qed.

Lemma oblivious_ensure_connected : oblivious _ensure_connected.
Proof.
  unfold _ensure_connected.
  pose proof oblivious_discover. pose proof oblivious_connect.
  repeat oblivious_step; assumption.
Qed.

Lemma oblivious_value_get (x : value) (k : string) (default : value) :
  oblivious (value_get x k default).
Proof. unfold value_get. destruct x; auto with oblivious. Qed.

Lemma oblivious_exchange (command : value) : oblivious (exchange command).
Proof.
  unfold exchange.
  repeat first
    [ apply oblivious_value_get
    | oblivious_step
    | (intros ? ? ?; reflexivity) ].
Qed.

Lemma oblivious_teardown (e : exn) : oblivious (teardown e).
Proof. unfold teardown. repeat oblivious_step. Qed.

Lemma oblivious_send_command (command : value) :
  oblivious (_send_command command).
Proof.
  unfold _send_command. apply oblivious_bind.
  - apply oblivious_ensure_connected.
  - intros _. apply oblivious_try;
      [apply oblivious_exchange | apply oblivious_teardown].
Qed.

Lemma oblivious_keeps_target {A} (c : M A) (w : World) (m : Machine) :
  oblivious c -> file_path (self (snd (c w m))) = file_path (self m).
Proof.
  intros Hc. rewrite <- (retarget_same m) at 1. rewrite Hc. reflexivity.
Qed.

(** ** What one exchange comes to *)

Lemma send_command_connected (w : World) (m m1 : Machine) (command : value) :
  _ensure_connected w m = (Returned tt, m1) ->
  _send_command command w m = try_except (exchange command) teardown w m1.
Proof. intros H. unfold _send_command, bind. rewrite H. reflexivity. Qed.

Lemma exchange_send_fault (w : World) (m : Machine) (h : WebSocket)
  (command : value) (msg : string) :
  ws (self m) = Some h ->
  ws_send w (clock m) (sock h) command = Some msg ->
  try_except (exchange command) teardown w m =
    (Raised (Raise Exception (communicate_prefix ++ msg)),
     exchanged m false 1 [EvSend (sock h) command; EvClose (sock h)]).
Proof.
  intros Hws Hsend.
  unfold try_except, exchange, bind, get_self, emit, ask. rewrite Hws.
  cbn. rewrite Hsend. unfold raise, teardown, bind, get_self. cbn.
  rewrite Hws. unfold emit, set_self, raise, exchanged. cbn.
  rewrite <- app_assoc. reflexivity.
Qed.

Lemma exchange_recv_fault (w : World) (m : Machine) (h : WebSocket)
  (command : value) (msg : string) :
  ws (self m) = Some h ->
  ws_send w (clock m) (sock h) command = None ->
  ws_recv w (S (clock m)) (sock h) = RecvFault msg ->
  try_except (exchange command) teardown w m =
    (Raised (Raise Exception (communicate_prefix ++ msg)),
     exchanged m false 2
       [EvSend (sock h) command; EvRecv (sock h); EvClose (sock h)]).
Proof.
  intros Hws Hsend Hrecv.
  unfold try_except, exchange, bind, get_self, emit, ask. rewrite Hws.
  cbn. rewrite Hsend. cbn. rewrite Hrecv.
  unfold raise, teardown, bind, get_self. cbn.
  rewrite Hws. unfold emit, set_self, raise, exchanged. cbn.
  rewrite <- !app_assoc. reflexivity.
Qed.

Lemma exchange_rejected (w : World) (m : Machine) (h : WebSocket)
  (command : value) (d : list (string * value)) :
  ws (self m) = Some h ->
  ws_send w (clock m) (sock h) command = None ->
  ws_recv w (S (clock m)) (sock h) = RecvDecoded (VDict d) ->
  truthy (dict_get d "success" VNone) = false ->
  try_except (exchange command) teardown w m =
    (Raised (Raise Exception
       (communicate_prefix ++
        str_of w (dict_get d "error" (VStr "Unknown error")))),
     exchanged m false 2
       [EvSend (sock h) command; EvRecv (sock h); EvClose (sock h)]).
Proof.
  intros Hws Hsend Hrecv Hfalse.
  unfold try_except, exchange, bind, get_self, emit, ask. rewrite Hws.
  cbn. rewrite Hsend. cbn. rewrite Hrecv.
  unfold value_get, ret. rewrite Hfalse.
  unfold raise, teardown, bind, get_self. cbn.
  rewrite Hws. unfold emit, set_self, raise, exchanged. cbn.
  rewrite <- !app_assoc. reflexivity.
Qed.

Lemma exchange_accepted (w : World) (m : Machine) (h : WebSocket)
  (command : value) (d : list (string * value)) :
  ws (self m) = Some h ->
  ws_send w (clock m) (sock h) command = None ->
  ws_recv w (S (clock m)) (sock h) = RecvDecoded (VDict d) ->
  truthy (dict_get d "success" VNone) = true ->
  try_except (exchange command) teardown w m =
    (Returned (dict_get d "result" (VDict [])),
     exchanged m true 2 [EvSend (sock h) command; EvRecv (sock h)]).
Proof.
  intros Hws Hsend Hrecv Htrue.
  unfold try_except, exchange, bind, get_self, emit, ask. rewrite Hws.
  cbn. rewrite Hsend. cbn. rewrite Hrecv.
  unfold value_get, ret. rewrite Htrue. unfold exchanged. cbn.
  rewrite <- !app_assoc. reflexivity.
Qed.

(** ** From the session to the operations *)

(** Past its guard an operation is its [_send_command], run with the
    target it works with. *)
Lemma call_raised (o : operation) (w : World) (m m' : Machine) (e : exn) :
  passes_guard o m ->
  _send_command (command_of o (file_path (self m))) w m = (Raised e, m') ->
  call o w m = (Raised e, retarget (target_before_send o m) m').
Proof.
  intros Hguard Hsend.
  assert (Hkeep : retarget (file_path (self m)) m' = m').
  { rewrite <- (oblivious_keeps_target _ w m
                  (oblivious_send_command
                     (command_of o (file_path (self m))))).
    rewrite Hsend. apply retarget_same. }
  destruct o; cbn [call needs_target command_of target_before_send] in *;
    try (destruct Hguard as [Hguard|Hguard]; [discriminate|]).
  - unfold get_active_file, bind. rewrite Hsend, Hkeep. reflexivity.
  - unfold set_file, bind, set_self. cbn [fst snd].
    change {| self := set_file_path (VStr path) (self m); clock := clock m;
              next_sock := next_sock m; trace := trace m |}
      with (retarget (VStr path) m).
    rewrite oblivious_send_command, Hsend. reflexivity.
  - unfold draw_circle, bind. rewrite require_file_path_run, Hguard.
    rewrite Hsend, Hkeep. reflexivity.
  - unfold draw_rectangle, bind. rewrite require_file_path_run, Hguard.
    rewrite Hsend, Hkeep. reflexivity.
  - unfold get_elements, bind. rewrite require_file_path_run, Hguard.
    rewrite Hsend, Hkeep. reflexivity.
  - unfold get_element_by_id, bind. rewrite require_file_path_run, Hguard.
    rewrite Hsend, Hkeep. reflexivity.
Qed.

Lemma sent_app (a b : list event) : sent (a ++ b) = (sent a ++ sent b)%list.
Proof.
  induction a as [|e a IH]; simpl; [reflexivity|].
  destruct e; simpl; rewrite ?IH; reflexivity.
Qed.

Lemma sent_network (evs : list event) : sent (network evs) = sent evs.
Proof.
  induction evs as [|e evs IH]; simpl; [reflexivity|].
  destruct e; simpl; rewrite ?IH; reflexivity.
Qed.

(** Getting connected sends nothing. *)
Lemma ensure_connected_sent (w : World) (m m1 : Machine) :
  _ensure_connected w m = (Returned tt, m1) ->
  sent (trace m1) = sent (trace m).
Proof.
  intros Hrun. destruct (ws_live (ws (self m))) eqn:Hl.
  - rewrite ensure_connected_live in Hrun by assumption.
    injection Hrun as <-. reflexivity.
  - destruct (ensure_connected_run w m Hl)
      as (r & m' & evs & Hrun' & Ht & _ & _ & _ & Hcases).
    rewrite Hrun in Hrun'. injection Hrun' as <- <-.
    rewrite Ht, sent_app, <- (sent_network evs).
    destruct Hcases as [(_ & -> & _) | [(port & _ & -> & _)
                       | (port & _ & -> & _)]];
      cbn; apply app_nil_r.
Qed.

(** Once connected, a command is sent exactly once, whatever comes back. *)
Lemma send_command_sent (w : World) (m m1 : Machine) (command : value) :
  _ensure_connected w m = (Returned tt, m1) ->
  sent (trace (snd (_send_command command w m))) =
    (sent (trace m) ++ [command])%list.
Proof.
  intros Hrun. rewrite (send_command_connected w m m1) by assumption.
  rewrite <- (ensure_connected_sent w m m1 Hrun).
  destruct (ensure_connected_returns w m m1 Hrun) as (h & Hws & _).
  unfold try_except.
  destruct (exchange_run w m1 h command Hws)
    as (r & m2 & evs & Hex & Hself & _ & Ht & Hevs).
  rewrite Hex.
  assert (Hsent : sent (trace m2) = (sent (trace m1) ++ [command])%list).
  { rewrite Ht, sent_app. destruct Hevs as [-> | ->]; reflexivity. }
  destruct r as [v|e]; cbn [snd]; [exact Hsent|].
  destruct (teardown_run w m2 e) as (m3 & Htd & _ & _ & _ & _ & Ht3).
  rewrite Htd. cbn [snd]. rewrite Ht3, sent_app, Hsent.
  destruct (ws (self m2)); cbn; apply app_nil_r.
Qed.

(** * The claims *)

(** ** Guarded operations *)

(** C2. A drawing or query operation called while the target is unset
    raises the "no file path" exception and leaves the machine exactly as
    it was: the trace gains no event and the clock does not advance, so
    there is no discovery, no connection attempt and no send. *)
Theorem unset_target_fails_before_network (o : operation) (w : World)
  (m : Machine) :
  needs_target o = true -> file_path (self m) = VNone ->
  call o w m = (Raised (Raise Exception no_file_path_msg), m).
Proof.
  intros Hneeds Hunset. apply call_guarded; [exact Hneeds|].
  rewrite Hunset. reflexivity.
Qed.

(** Right after import the target is unset: [draw_circle] stops at its
    guard. *)
Lemma unset_target_fails_before_network_witness :
  call (OpDrawCircle "c1" (VInt 10) (VInt 20) (VInt 5) None)
    (running_editor ack) (imported (running_editor ack)) =
  (Raised (Raise Exception no_file_path_msg), imported (running_editor ack)).
Proof.
  apply (unset_target_fails_before_network
           (OpDrawCircle "c1" (VInt 10) (VInt 20) (VInt 5) None)
           (running_editor ack) (imported (running_editor ack)));
    vm_compute; reflexivity.
Defined.

(** C3. [set_file path] stores [path] as the target and then runs the
    send on the machine that already holds it; whatever the send does,
    returning or raising, the target is [path] afterwards. *)
Theorem set_file_stores_target_first (path : string) (w : World)
  (m : Machine) :
  set_file path w m =
    _send_command (VDict [("type", VStr "set_file");
                          ("file_path", VStr path)])
      w (retarget (VStr path) m) /\
  file_path (self (retarget (VStr path) m)) = VStr path /\
  file_path (self (snd (set_file path w m))) = VStr path.
Proof.
  assert (Hrun : set_file path w m =
    _send_command (VDict [("type", VStr "set_file");
                          ("file_path", VStr path)])
      w (retarget (VStr path) m)) by reflexivity.
  split; [exact Hrun|]. split; [reflexivity|].
  rewrite Hrun.
  rewrite (oblivious_keeps_target _ w _ (oblivious_send_command _)).
  reflexivity.
Qed.

(** ** The envelope *)

(** C7. With the target ["/tmp/x.luke"], [draw_circle("c1",10,20,5)] is
    the send of the envelope with type [draw_circle], that target as
    [file_path] and the circle as [data], its colour defaulted to
    ["#000000"]; once the session is connected exactly that envelope, and
    nothing else, is sent. *)
Theorem draw_circle_envelope (w : World) (m m1 : Machine) :
  file_path (self m) = VStr "/tmp/x.luke" ->
  _ensure_connected w m = (Returned tt, m1) ->
  let envelope :=
    VDict [("type", VStr "draw_circle");
           ("file_path", VStr "/tmp/x.luke");
           ("data", VDict [("id", VStr "c1"); ("x", VInt 10);
                           ("y", VInt 20); ("radius", VInt 5);
                           ("color", VStr "#000000")])] in
  draw_circle "c1" (VInt 10) (VInt 20) (VInt 5) None w m =
    _send_command envelope w m /\
  sent (trace (snd (draw_circle "c1" (VInt 10) (VInt 20) (VInt 5) None w m)))
    = (sent (trace m) ++ [envelope])%list.
Proof.
  intros Hfp Hconn envelope.
  assert (Hrun : draw_circle "c1" (VInt 10) (VInt 20) (VInt 5) None w m =
                 _send_command envelope w m).
  { unfold draw_circle, bind. rewrite require_file_path_run, Hfp.
    reflexivity. }
  split; [exact Hrun|]. rewrite Hrun.
  apply send_command_sent with (m1 := m1). exact Hconn.
Qed.

(** The envelope on the wire once [set_file] was acknowledged. *)
Lemma draw_circle_envelope_witness :
  sent (trace (snd (draw_circle "c1" (VInt 10) (VInt 20) (VInt 5) None
                      (running_editor ack)
                      (run_calls [OpSetFile "/tmp/x.luke"]
                         (running_editor ack)
                         (imported (running_editor ack)))))) =
  (sent (trace (run_calls [OpSetFile "/tmp/x.luke"] (running_editor ack)
                  (imported (running_editor ack)))) ++
   [VDict [("type", VStr "draw_circle");
           ("file_path", VStr "/tmp/x.luke");
           ("data", VDict [("id", VStr "c1"); ("x", VInt 10);
                           ("y", VInt 20); ("radius", VInt 5);
                           ("color", VStr "#000000")])]])%list.
Proof.
  refine (proj2 (draw_circle_envelope (running_editor ack)
           (run_calls [OpSetFile "/tmp/x.luke"] (running_editor ack)
              (imported (running_editor ack)))
           (run_calls [OpSetFile "/tmp/x.luke"] (running_editor ack)
              (imported (running_editor ack))) _ _));
    vm_compute; reflexivity.
Defined.

(** ** Results *)

(** C8. When the session is connected, the send goes through and the
    reply decodes to a response whose [success] is truthy, [get_elements]
    returns: the unwrapped result itself when that is a list, the empty
    list otherwise. It does not raise. *)
Theorem get_elements_coerces_to_list (w : World) (m m1 : Machine)
  (h : WebSocket) (d : list (string * value)) :
  truthy (file_path (self m)) = true ->
  _ensure_connected w m = (Returned tt, m1) ->
  ws (self m1) = Some h ->
  ws_send w (clock m1) (sock h)
    (command_of OpGetElements (file_path (self m))) = None ->
  ws_recv w (S (clock m1)) (sock h) = RecvDecoded (VDict d) ->
  truthy (dict_get d "success" VNone) = true ->
  fst (get_elements w m) =
    Returned match dict_get d "result" (VDict []) with
             | VList l => VList l
             | _ => VList []
             end.
Proof.
  intros Hfp Hconn Hws Hsend Hrecv Hsuccess.
  unfold get_elements, bind. rewrite require_file_path_run, Hfp.
  change (VDict [("type", VStr "get_elements");
                 ("file_path", file_path (self m))])
    with (command_of OpGetElements (file_path (self m))).
  rewrite (send_command_connected w m m1) by assumption.
  rewrite (exchange_accepted w m1 h _ d) by assumption.
  cbn. destruct (dict_get d "result" (VDict [])); reflexivity.
Qed.

(** The editor answers with a dict where a list is due: [get_elements]
    returns the empty list. *)
Lemma get_elements_coerces_to_list_witness :
  fst (get_elements (running_editor ack)
         (run_calls [OpSetFile "/tmp/x.luke"] (running_editor ack)
            (imported (running_editor ack)))) =
  Returned (VList []).
Proof.
  refine (get_elements_coerces_to_list (running_editor ack)
            (run_calls [OpSetFile "/tmp/x.luke"] (running_editor ack)
               (imported (running_editor ack)))
            (run_calls [OpSetFile "/tmp/x.luke"] (running_editor ack)
               (imported (running_editor ack)))
            {| sock := 0; connected := true |}
            [("success", VBool true);
             ("result", VDict [("status", VStr "success")])]
            _ _ _ _ _ _);
    vm_compute; reflexivity.
Defined.

(** C4. With the target set, the session connected and the exchange going
    through, [get_element_by_id] hands over what the editor found: the
    element, or [None] for an id that names no element. It returns in
    both cases; a missing id does not make it raise. *)
Theorem get_element_by_id_not_found_is_none (w : World) (m m1 : Machine)
  (h : WebSocket) (scene : list (string * value)) (id : string) :
  truthy (file_path (self m)) = true ->
  _ensure_connected w m = (Returned tt, m1) ->
  ws (self m1) = Some h ->
  ws_send w (clock m1) (sock h)
    (command_of (OpGetElementById id) (file_path (self m))) = None ->
  ws_recv w (S (clock m1)) (sock h) =
    RecvDecoded (editor_get_element_by_id scene id) ->
  fst (get_element_by_id id w m) =
    Returned match dict_lookup scene id with
             | Some element => element
             | None => VNone
             end /\
  (dict_lookup scene id = None ->
   fst (get_element_by_id id w m) = Returned VNone).
Proof.
  intros Hfp Hconn Hws Hsend Hrecv.
  assert (Hrun : fst (get_element_by_id id w m) =
                 Returned match dict_lookup scene id with
                          | Some element => element
                          | None => VNone
                          end).
  { unfold get_element_by_id, bind. rewrite require_file_path_run, Hfp.
    change (VDict [("type", VStr "get_element_by_id");
                   ("file_path", file_path (self m));
                   ("data", VDict [("id", VStr id)])])
      with (command_of (OpGetElementById id) (file_path (self m))).
    rewrite (send_command_connected w m m1) by assumption.
    unfold editor_get_element_by_id in Hrecv.
    rewrite (exchange_accepted w m1 h _ _ Hws Hsend Hrecv) by reflexivity.
    reflexivity. }
  split; [exact Hrun|]. intros Hnone. rewrite Hrun, Hnone. reflexivity.
Qed.

(** A scene holding [c1] is asked for [ghost]. *)
Lemma get_element_by_id_not_found_is_none_witness :
  fst (get_element_by_id "ghost"
         (running_editor (VDict [("success", VBool true); ("result", VNone)]))
         (run_calls [OpSetFile "/tmp/x.luke"]
            (running_editor
               (VDict [("success", VBool true); ("result", VNone)]))
            (imported
               (running_editor
                  (VDict [("success", VBool true); ("result", VNone)])))))
  = Returned VNone.
Proof.
  refine (proj2 (get_element_by_id_not_found_is_none
            (running_editor (VDict [("success", VBool true); ("result", VNone)]))
            (run_calls [OpSetFile "/tmp/x.luke"]
               (running_editor
                  (VDict [("success", VBool true); ("result", VNone)]))
               (imported
                  (running_editor
                     (VDict [("success", VBool true); ("result", VNone)]))))
            (run_calls [OpSetFile "/tmp/x.luke"]
               (running_editor
                  (VDict [("success", VBool true); ("result", VNone)]))
               (imported
                  (running_editor
                     (VDict [("success", VBool true); ("result", VNone)]))))
            {| sock := 0; connected := true |}
            [("c1", VDict [("id", VStr "c1")])] "ghost" _ _ _ _ _) _);
    vm_compute; reflexivity.
Defined.

(** ** Rejections *)

(** The rejection of a command, as every operation reports it. *)
Lemma call_rejected (o : operation) (w : World) (m m1 : Machine)
  (h : WebSocket) (d : list (string * value)) :
  passes_guard o m ->
  _ensure_connected w m = (Returned tt, m1) ->
  ws (self m1) = Some h ->
  ws_send w (clock m1) (sock h) (command_of o (file_path (self m))) = None ->
  ws_recv w (S (clock m1)) (sock h) = RecvDecoded (VDict d) ->
  truthy (dict_get d "success" VNone) = false ->
  call o w m =
    (Raised (Raise Exception
       (communicate_prefix ++
        str_of w (dict_get d "error" (VStr "Unknown error")))),
     retarget (target_before_send o m)
       (exchanged m1 false 2
          [EvSend (sock h) (command_of o (file_path (self m)));
           EvRecv (sock h); EvClose (sock h)])).
Proof.
  intros Hguard Hconn Hws Hsend Hrecv Hfalse.
  apply call_raised; [exact Hguard|].
  rewrite (send_command_connected w m m1) by assumption.
  apply exchange_rejected; assumption.
Qed.

(** C1, as the code has it. When the reply decodes to a response whose
    [success] is not truthy, the operation raises a plain [Exception]
    whose message is the fixed prefix "Failed to communicate with VSCode
    extension: " followed by the reported error; an error that is a string
    follows the prefix verbatim. *)
Theorem rejection_message_is_prefixed (o : operation) (w : World)
  (m m1 : Machine) (h : WebSocket) (d : list (string * value)) :
  passes_guard o m ->
  _ensure_connected w m = (Returned tt, m1) ->
  ws (self m1) = Some h ->
  ws_send w (clock m1) (sock h) (command_of o (file_path (self m))) = None ->
  ws_recv w (S (clock m1)) (sock h) = RecvDecoded (VDict d) ->
  truthy (dict_get d "success" VNone) = false ->
  exists reported,
    fst (call o w m) =
      Raised (Raise Exception (communicate_prefix ++ reported)) /\
    reported = str_of w (dict_get d "error" (VStr "Unknown error")) /\
    (forall e, dict_lookup d "error" = Some (VStr e) -> reported = e).
Proof.
  intros Hguard Hconn Hws Hsend Hrecv Hfalse.
  exists (str_of w (dict_get d "error" (VStr "Unknown error"))).
  rewrite (call_rejected o w m m1 h d) by assumption.
  repeat split. intros e He. unfold dict_get. rewrite He. reflexivity.
Qed.

(** The editor acknowledges [set_file] and rejects [draw_circle]. *)
Lemma rejection_message_is_prefixed_witness :
  exists reported,
    fst (call (OpDrawCircle "c1" (VInt 10) (VInt 20) (VInt 5) None)
           rejecting_editor
           (run_calls [OpSetFile "/tmp/x.luke"] rejecting_editor
              (imported rejecting_editor))) =
      Raised (Raise Exception (communicate_prefix ++ reported)) /\
    reported =
      str_of rejecting_editor
        (dict_get [("success", VBool false); ("error", VStr "duplicate id")]
           "error" (VStr "Unknown error")) /\
    (forall e,
       dict_lookup [("success", VBool false); ("error", VStr "duplicate id")]
         "error" = Some (VStr e) -> reported = e).
Proof.
  refine (rejection_message_is_prefixed
            (OpDrawCircle "c1" (VInt 10) (VInt 20) (VInt 5) None)
            rejecting_editor
            (run_calls [OpSetFile "/tmp/x.luke"] rejecting_editor
               (imported rejecting_editor))
            (run_calls [OpSetFile "/tmp/x.luke"] rejecting_editor
               (imported rejecting_editor))
            {| sock := 0; connected := true |}
            [("success", VBool false); ("error", VStr "duplicate id")]
            _ _ _ _ _ _);
    try (right; vm_compute; reflexivity); vm_compute; reflexivity.
Defined.

(** C1, as the claim words it, fails: the editor acknowledges [set_file]
    and answers [draw_circle] with success false and the error
    "duplicate id"; the exception raised carries the prefixed message,
    which is not "duplicate id". *)
Lemma rejection_message_not_verbatim :
  fst (draw_circle "c1" (VInt 10) (VInt 20) (VInt 5) None rejecting_editor
         (run_calls [OpSetFile "/tmp/x.luke"] rejecting_editor
            (imported rejecting_editor))) =
    Raised (Raise Exception
      "Failed to communicate with VSCode extension: duplicate id") /\
  "Failed to communicate with VSCode extension: duplicate id"
    <> "duplicate id".
Proof. split; [vm_compute; reflexivity | discriminate]. Qed.

(** ** Reconnecting *)

Lemma on_sock_network (s : nat) (e : event) :
  on_sock s e = true -> is_network e = true.
Proof. destruct e; simpl; intros H; try reflexivity; discriminate. Qed.

(** Events off the network touch no socket. *)
Lemma quiet_off_sock (s : nat) (evs : list event) :
  Forall (fun e => on_sock s e = false) (network evs) ->
  Forall (fun e => on_sock s e = false) evs.
Proof.
  intros H. apply Forall_forall. intros e He.
  destruct (on_sock s e) eqn:Hon; [|reflexivity].
  rewrite Forall_forall in H.
  assert (Hoff : on_sock s e = false).
  { apply H, filter_In. split; [exact He | exact (on_sock_network s e Hon)]. }
  congruence.
Qed.

(** Without a handle, a send makes one discovery pass, at most one
    connection attempt (exactly one when discovery leaves a port), and
    talks to no socket that existed before. *)
Lemma send_command_reconnect (w : World) (m : Machine) (command : value) :
  ws (self m) = None ->
  exists evs,
    trace (snd (_send_command command w m)) = (trace m ++ evs)%list /\
    passes evs = 1%nat /\
    connect_attempts evs =
      (if port_truthy (vscode_port (self (snd (_send_command command w m))))
       then 1%nat else 0%nat) /\
    forall s, (s < next_sock m)%nat ->
      Forall (fun e => on_sock s e = false) evs.
Proof.
  intros Hnone.
  assert (Hdead : ws_live (ws (self m)) = false) by (rewrite Hnone; reflexivity).
  destruct (ensure_connected_run w m Hdead)
    as (r & m1 & evs1 & Hrun & Ht1 & Hp1 & _ & _ & Hcases).
  destruct Hcases as [(-> & Hn & _ & _ & Hport)
                     | [(port & -> & Hn & _ & _ & Hport & Hnz)
                       | (port & -> & Hn & Hws & Hns & Hport & Hnz)]].
  - unfold _send_command, bind. rewrite Hrun. cbn [snd].
    exists evs1. rewrite Hport, <- connect_attempts_network, Hn.
    repeat split; auto. intros s _. apply quiet_off_sock. rewrite Hn.
    constructor.
  - unfold _send_command, bind. rewrite Hrun. cbn [snd].
    assert (Htr : port_truthy (vscode_port (self m1)) = true)
      by (apply port_truthy_some; eauto).
    exists evs1. rewrite Htr, <- connect_attempts_network, Hn.
    repeat split; auto. intros s _. apply quiet_off_sock. rewrite Hn.
    repeat constructor.
  - rewrite (send_command_connected w m m1) by assumption.
    unfold try_except.
    destruct (exchange_run w m1 _ command Hws)
      as (r & m2 & evs2 & Hex & Hself & _ & Ht2 & Hevs).
    rewrite Hex. cbn [sock] in Hevs.
    assert (Htr : port_truthy (vscode_port (self m2)) = true)
      by (rewrite Hself; apply port_truthy_some; eauto).
    assert (Hp2 : passes evs2 = 0%nat)
      by (destruct Hevs as [-> | ->]; reflexivity).
    assert (Hc2 : connect_attempts evs2 = 0%nat)
      by (destruct Hevs as [-> | ->]; reflexivity).
    assert (Hc1 : connect_attempts evs1 = 1%nat)
      by (rewrite <- connect_attempts_network, Hn; reflexivity).
    assert (Hoff1 : forall s, Forall (fun e => on_sock s e = false) evs1).
    { intros s. apply quiet_off_sock. rewrite Hn. repeat constructor. }
    assert (Hoff2 : forall s, (s < next_sock m)%nat ->
                         Forall (fun e => on_sock s e = false) evs2).
    { intros s Hlt.
      assert (Hne : Nat.eqb (next_sock m) s = false)
        by (apply Nat.eqb_neq; lia).
      destruct Hevs as [-> | ->]; repeat constructor; cbn; exact Hne. }
    destruct r as [v|e]; cbn [snd].
    + exists (evs1 ++ evs2)%list.
      rewrite Ht2, Ht1, <- app_assoc, passes_app, connect_attempts_app,
        Hp1, Hp2, Hc1, Hc2, Htr.
      repeat split; auto. intros s Hlt. apply Forall_app. auto.
    + destruct (teardown_run w m2 e)
        as (m3 & Htd & _ & Hport3 & _ & _ & Ht3).
      rewrite Htd. cbn [snd]. rewrite Hself, Hws in Ht3. cbn [sock] in Ht3.
      exists (evs1 ++ evs2 ++ [EvClose (next_sock m)])%list.
      rewrite Ht3, Ht2, Ht1, <- !app_assoc, !passes_app,
        !connect_attempts_app, Hp1, Hp2, Hc1, Hc2, Hport3, Htr.
      repeat split; auto. intros s Hlt.
      repeat (apply Forall_app; split); auto.
      repeat constructor. cbn. apply Nat.eqb_neq. lia.
Qed.

(** The same of any operation that gets past its guard. *)
Lemma call_reconnect (o : operation) (w : World) (m : Machine) :
  passes_guard o m -> ws (self m) = None ->
  exists evs,
    trace (snd (call o w m)) = (trace m ++ evs)%list /\
    passes evs = 1%nat /\
    connect_attempts evs =
      (if port_truthy (vscode_port (self (snd (call o w m))))
       then 1%nat else 0%nat) /\
    forall s, (s < next_sock m)%nat ->
      Forall (fun e => on_sock s e = false) evs.
Proof.
  intros Hguard Hnone.
  destruct (call_send o w m Hguard)
    as (c & m0 & Hws0 & _ & Ht0 & Hns0 & _ & _ & Hport & Ht & _).
  rewrite Hnone in Hws0.
  destruct (send_command_reconnect w m0 c Hws0)
    as (evs & Htr & Hp & Hc & Hoff).
  exists evs. rewrite Ht, Htr, Ht0, Hport, <- Hns0. auto.
Qed.

(** C10. A reply that decodes to a response whose [success] is not truthy
    makes the operation close the handle, drop it and then raise: the
    close is the last event of the call and the object holds no handle
    afterwards. The next operation that gets past its guard therefore
    makes a discovery pass and, when that leaves a port, one connection
    attempt. *)
Theorem rejection_tears_session_down (o next : operation) (w : World)
  (m m1 : Machine) (h : WebSocket) (d : list (string * value)) :
  passes_guard o m ->
  _ensure_connected w m = (Returned tt, m1) ->
  ws (self m1) = Some h ->
  ws_send w (clock m1) (sock h) (command_of o (file_path (self m))) = None ->
  ws_recv w (S (clock m1)) (sock h) = RecvDecoded (VDict d) ->
  truthy (dict_get d "success" VNone) = false ->
  passes_guard next (snd (call o w m)) ->
  (exists e, fst (call o w m) = Raised e) /\
  trace (snd (call o w m)) =
    (trace m1 ++ [EvSend (sock h) (command_of o (file_path (self m)));
                  EvRecv (sock h); EvClose (sock h)])%list /\
  ws (self (snd (call o w m))) = None /\
  exists evs,
    trace (snd (call next w (snd (call o w m)))) =
      (trace (snd (call o w m)) ++ evs)%list /\
    passes evs = 1%nat /\
    connect_attempts evs =
      (if port_truthy
            (vscode_port (self (snd (call next w (snd (call o w m))))))
       then 1%nat else 0%nat).
Proof.
  intros Hguard Hconn Hws Hsend Hrecv Hfalse Hnext.
  pose proof (call_rejected o w m m1 h d Hguard Hconn Hws Hsend Hrecv Hfalse)
    as Hcall.
  rewrite Hcall in *. cbn [fst snd] in *.
  split; [eauto|]. split; [reflexivity|]. split; [reflexivity|].
  destruct (call_reconnect next w _ Hnext eq_refl)
    as (evs & Ht & Hp & Hc & _).
  exists evs. auto.
Qed.

(** After the rejected [draw_circle] the object holds no handle. *)
Lemma rejection_tears_session_down_witness :
  ws (self (snd (call (OpDrawCircle "c1" (VInt 10) (VInt 20) (VInt 5) None)
                   rejecting_editor
                   (run_calls [OpSetFile "/tmp/x.luke"] rejecting_editor
                      (imported rejecting_editor))))) = None.
Proof.
  refine (proj1 (proj2 (proj2 (rejection_tears_session_down
            (OpDrawCircle "c1" (VInt 10) (VInt 20) (VInt 5) None)
            OpGetElements
            rejecting_editor
            (run_calls [OpSetFile "/tmp/x.luke"] rejecting_editor
               (imported rejecting_editor))
            (run_calls [OpSetFile "/tmp/x.luke"] rejecting_editor
               (imported rejecting_editor))
            {| sock := 0; connected := true |}
            [("success", VBool false); ("error", VStr "duplicate id")]
            _ _ _ _ _ _ _))));
    try (right; vm_compute; reflexivity); vm_compute; reflexivity.
Defined.

(** ** Discovery, as specified *)

Lemma usable_steady (w : World) (t t' : nat) (p : Path) :
  steady w -> usable_at w t p = usable_at w t' p.
Proof.
  intros Hs. unfold usable_at.
  destruct (Hs t t' p) as (-> & _). destruct (Hs (S t) (S t') p) as (_ & ->).
  reflexivity.
Qed.

(** On a steady file system the answer of [first_usable] is the first
    candidate of the list that is usable, whenever probing starts. *)
Lemma first_usable_steady (w : World) (paths : list Path) :
  steady w -> forall t,
  match first_usable w t paths with
  | Some (k, n) =>
      exists p, nth_error paths k = Some p /\ usable_at w 0 p = Some n /\
                forall j q, (j < k)%nat -> nth_error paths j = Some q ->
                            usable_at w 0 q = None
  | None => forall q, In q paths -> usable_at w 0 q = None
  end.
Proof.
  intros Hs. induction paths as [|p rest IH]; intros t; cbn [first_usable].
  - intros q [].
  - rewrite (usable_steady w t 0 p Hs).
    destruct (usable_at w 0 p) as [n|] eqn:Hp.
    + exists p. repeat split; auto. intros j q Hj. lia.
    + specialize (IH (probe_cost w t p + t)%nat).
      destruct (first_usable w (probe_cost w t p + t) rest) as [[k n]|].
      * destruct IH as (p' & Hnth & Hu & Hbefore).
        exists p'. repeat split; auto.
        intros [|j] q Hj Hq; cbn in Hq.
        -- injection Hq as <-. exact Hp.
        -- apply (Hbefore j q); [lia | exact Hq].
      * intros q [<- | Hin]; [exact Hp | apply IH, Hin].
Qed.

(** C6, as the code has it. A discovery pass never raises and touches no
    network. It probes the candidates in list order and stops at the
    first one that exists and parses as an integer, whose port it stores
    and announces; candidates before it, missing, unreadable or not a
    number, are passed over. When no candidate is usable every one has
    been probed, the warning is printed and the stored port is left as it
    was: absent if it was absent, the earlier port otherwise. *)
Theorem discovery_takes_first_usable (w : World) (m : Machine) :
  exists m' evs,
    _discover_vscode_port w m = (Returned tt, m') /\
    trace m' = (trace m ++ evs)%list /\ network evs = [] /\
    match first_usable w (clock m) (possible_paths w) with
    | Some (k, n) =>
        vscode_port (self m') = Some n /\
        probed evs = firstn (S k) (possible_paths w) /\
        (exists evs0, evs = (evs0 ++ [EvPrint (LogDiscovered n)])%list) /\
        (steady w ->
         exists p, nth_error (possible_paths w) k = Some p /\
                   usable_at w 0 p = Some n /\
                   forall j q, (j < k)%nat ->
                     nth_error (possible_paths w) j = Some q ->
                     usable_at w 0 q = None)
    | None =>
        vscode_port (self m') = vscode_port (self m) /\
        probed evs = possible_paths w /\
        (exists evs0, evs = (evs0 ++ [EvPrint LogNoPortWarning])%list) /\
        (steady w ->
         forall q, In q (possible_paths w) -> usable_at w 0 q = None)
    end.
Proof.
  destruct (discover_run w m)
    as (m' & evs & Hrun & (Ht & Hn & _) & _ & Hport & Hres).
  exists m', evs. repeat (split; [assumption|]).
  unfold port_after_discovery in Hport.
  pose proof (fun Hs => first_usable_steady w (possible_paths w) Hs (clock m))
    as Hsteady.
  destruct (first_usable w (clock m) (possible_paths w)) as [[k n]|];
    destruct Hres as (Hpr & Hlast); auto.
Qed.

(** C6, as the claim words it, fails. The editor ran while the module was
    imported and has stopped since. At the next discovery pass every
    candidate fails, yet the port the object holds afterwards is the
    earlier [9931], not absent: [set_file] goes on to dial that port and
    reports a failed connection, not a server that was not found. *)
Lemma discovery_failure_keeps_stale_port :
  first_usable stopped_editor (clock (imported stopped_editor))
    (possible_paths stopped_editor) = None /\
  vscode_port
    (self (snd (_discover_vscode_port stopped_editor
                  (imported stopped_editor)))) = Some 9931 /\
  fst (set_file "/tmp/x.luke" stopped_editor (imported stopped_editor)) =
    Raised (Raise Exception connect_failed_msg) /\
  connect_attempts
    (trace (snd (set_file "/tmp/x.luke" stopped_editor
                   (imported stopped_editor)))) = 1%nat.
Proof. repeat split; vm_compute; reflexivity. Qed.

(** ** Construction *)

(** With no handle and no port to be had, a send reports that the server
    was not found. *)
Lemma send_command_not_found (w : World) (m : Machine) (command : value) :
  ws (self m) = None ->
  port_truthy (port_after_discovery w (clock m) (vscode_port (self m)))
    = false ->
  exists m',
    _send_command command w m =
      (Raised (Raise Exception server_not_found_msg), m').
Proof.
  intros Hnone Hport.
  assert (Hdead : ws_live (ws (self m)) = false) by (rewrite Hnone; reflexivity).
  destruct (ensure_connected_run w m Hdead)
    as (r & m1 & evs1 & Hrun & _ & _ & _ & Hafter & Hcases).
  rewrite <- Hafter in Hport.
  assert (Hr : r = Raised (Raise Exception server_not_found_msg)).
  { destruct Hcases as [(-> & _) | [(port & _ & _ & _ & _ & Hp & Hnz)
                       | (port & _ & _ & _ & _ & Hp & Hnz)]];
      [reflexivity | |];
      assert (port_truthy (vscode_port (self m1)) = true)
        by (apply port_truthy_some; eauto); congruence. }
  subst r. exists m1. unfold _send_command, bind. rewrite Hrun. reflexivity.
Qed.

(** C9. Constructing the object never raises. It makes exactly one
    discovery pass and no network event: no connection is opened. It
    leaves the target unset and the handle absent, and the port is what
    the pass found. When no candidate was usable the port is absent and
    nothing has failed yet; the failure shows at the next operation: a
    guarded one stops at its guard, and [set_file] or [get_active_file]
    report that the server was not found if the candidates still yield
    nothing. *)
Theorem construction_only_discovers (w : World) :
  exists m,
    __init__ w power_on = (Returned tt, m) /\
    passes (trace m) = 1%nat /\ network (trace m) = [] /\
    file_path (self m) = VNone /\ ws (self m) = None /\
    match first_usable w 0 (possible_paths w) with
    | Some (_, n) => vscode_port (self m) = Some n
    | None =>
        vscode_port (self m) = None /\
        (forall o, needs_target o = true ->
           call o w m = (Raised (Raise Exception no_file_path_msg), m)) /\
        (forall o, needs_target o = false ->
           first_usable w (clock m) (possible_paths w) = None ->
           fst (call o w m) = Raised (Raise Exception server_not_found_msg))
    end.
Proof.
  unfold __init__, bind, set_self. cbn [power_on self clock next_sock trace].
  match goal with |- context [_discover_vscode_port w ?m0] =>
    destruct (discover_run w m0)
      as (m & evs & Hrun & (Ht & Hn & Hfp & Hws & _) & Hp & Hport & _) end.
  rewrite Hrun. cbn in Ht, Hfp, Hws, Hport. exists m.
  rewrite Ht, Hp, Hn. repeat (split; [auto; fail|]).
  unfold port_after_discovery in Hport.
  destruct (first_usable w 0 (possible_paths w)) as [[k n]|]; [exact Hport|].
  split; [exact Hport|]. split.
  - intros o Hneeds. apply call_guarded; [exact Hneeds|].
    rewrite Hfp. reflexivity.
  - intros o Hfree Hstill.
    destruct (send_command_not_found w m
                (command_of o (file_path (self m))) Hws) as (m' & Hsend).
    { unfold port_after_discovery. rewrite Hstill, Hport. reflexivity. }
    rewrite (call_raised o w m m' _ (or_introl Hfree) Hsend). reflexivity.
Qed.

(** ** Transport faults *)

(** A fault while sending or receiving, as every operation reports it. *)
Lemma call_faulted (o : operation) (w : World) (m m1 : Machine)
  (h : WebSocket) (msg : string) :
  passes_guard o m ->
  _ensure_connected w m = (Returned tt, m1) ->
  ws (self m1) = Some h ->
  ws_send w (clock m1) (sock h) (command_of o (file_path (self m))) = Some msg
  \/ (ws_send w (clock m1) (sock h) (command_of o (file_path (self m))) = None
      /\ ws_recv w (S (clock m1)) (sock h) = RecvFault msg) ->
  exists ticks evs,
    call o w m =
      (Raised (Raise Exception (communicate_prefix ++ msg)),
       retarget (target_before_send o m)
         (exchanged m1 false ticks (evs ++ [EvClose (sock h)]))).
Proof.
  intros Hguard Hconn Hws [Hsend | (Hsend & Hrecv)].
  - exists 1%nat, [EvSend (sock h) (command_of o (file_path (self m)))].
    apply call_raised; [exact Hguard|].
    rewrite (send_command_connected w m m1) by assumption.
    apply exchange_send_fault; assumption.
  - exists 2%nat, [EvSend (sock h) (command_of o (file_path (self m)));
                   EvRecv (sock h)].
    apply call_raised; [exact Hguard|].
    rewrite (send_command_connected w m m1) by assumption.
    apply exchange_recv_fault; assumption.
Qed.

(** C5. However the program got where it is, at most one socket is open.
    When a send or a receive raises, the operation closes the handle,
    drops it and raises in turn: the close is the last event of the call
    and no socket is left open. The next operation that gets past its
    guard makes exactly one discovery pass and, when that leaves a port,
    exactly one connection attempt; it does nothing on the socket of the
    handle that failed. *)
Theorem one_handle_and_fresh_reconnect (w : World) (ops : list operation)
  (o next : operation) (m m1 : Machine) (h : WebSocket) (msg : string) :
  m = run_calls ops w (imported w) ->
  passes_guard o m ->
  _ensure_connected w m = (Returned tt, m1) ->
  ws (self m1) = Some h ->
  ws_send w (clock m1) (sock h) (command_of o (file_path (self m))) = Some msg
  \/ (ws_send w (clock m1) (sock h) (command_of o (file_path (self m))) = None
      /\ ws_recv w (S (clock m1)) (sock h) = RecvFault msg) ->
  passes_guard next (snd (call o w m)) ->
  (forall calls,
     (length (open_socks (trace (run_calls calls w (imported w)))) <= 1)%nat)
  /\ fst (call o w m) = Raised (Raise Exception (communicate_prefix ++ msg))
  /\ (exists evs,
        trace (snd (call o w m)) =
          (trace m1 ++ evs ++ [EvClose (sock h)])%list)
  /\ ws (self (snd (call o w m))) = None
  /\ open_socks (trace (snd (call o w m))) = []
  /\ exists evs,
       trace (snd (call next w (snd (call o w m)))) =
         (trace (snd (call o w m)) ++ evs)%list /\
       passes evs = 1%nat /\
       connect_attempts evs =
         (if port_truthy
              (vscode_port (self (snd (call next w (snd (call o w m))))))
          then 1%nat else 0%nat) /\
       Forall (fun e => on_sock (sock h) e = false) evs.
Proof.
  intros Hm Hguard Hconn Hws Hfault Hnext.
  assert (Hwf : wf m) by (subst m; apply run_calls_wf, init_wf).
  assert (Hwf1 : wf m1).
  { pose proof (ensure_connected_wf w m Hwf) as H.
    rewrite Hconn in H. exact H. }
  assert (Hwf2 : wf (snd (call o w m))) by (apply call_wf, Hwf).
  assert (Hlt : (sock h < next_sock m1)%nat).
  { unfold wf in Hwf1. rewrite Hws in Hwf1. apply Hwf1. }
  split.
  { intros calls. apply wf_open_le_1, run_calls_wf, init_wf. }
  destruct (call_faulted o w m m1 h msg Hguard Hconn Hws Hfault)
    as (ticks & evs & Hcall).
  rewrite Hcall in *. cbn [fst snd] in *.
  split; [reflexivity|]. split; [exists evs; reflexivity|].
  split; [reflexivity|]. split; [exact Hwf2|].
  destruct (call_reconnect next w _ Hnext eq_refl)
    as (evs' & Ht & Hp & Hc & Hoff).
  exists evs'. repeat split; auto.
Qed.

(** The first send breaks: [set_file] raises and no socket stays open. *)
Lemma one_handle_and_fresh_reconnect_witness :
  fst (call (OpSetFile "/tmp/x.luke") (flaky_editor ack)
         (imported (flaky_editor ack))) =
    Raised (Raise Exception (communicate_prefix ++ "Broken pipe")) /\
  open_socks
    (trace (snd (call (OpSetFile "/tmp/x.luke") (flaky_editor ack)
                   (imported (flaky_editor ack))))) = [].
Proof.
  pose proof (one_handle_and_fresh_reconnect (flaky_editor ack) []
                (OpSetFile "/tmp/x.luke") OpGetElements
                (imported (flaky_editor ack))
                (snd (_ensure_connected (flaky_editor ack)
                        (imported (flaky_editor ack))))
                {| sock := 0; connected := true |} "Broken pipe") as H.
  destruct H as (_ & Hraised & _ & _ & Hopen & _).
  - reflexivity.
  - left. reflexivity.
  - vm_compute. reflexivity.
  - vm_compute. reflexivity.
  - left. vm_compute. reflexivity.
  - right. vm_compute. reflexivity.
  - split; [exact Hraised | exact Hopen].
Defined.

(** * More of the bridge *)

(** ** What an operation does with the outcome of its send *)

Lemma ensure_connected_keeps_target (w : World) (m : Machine) :
  file_path (self (snd (_ensure_connected w m))) = file_path (self m).
Proof. apply oblivious_keeps_target, oblivious_ensure_connected. Qed.

(** The session after an operation is the session after its send. *)
Lemma call_session (o : operation) (w : World) (m : Machine) :
  passes_guard o m ->
  let m1 := snd (_send_command (command_of o (file_path (self m))) w m) in
  let m2 := snd (call o w m) in
  ws (self m2) = ws (self m1) /\ vscode_port (self m2) = vscode_port (self m1)
  /\ trace m2 = trace m1 /\ next_sock m2 = next_sock m1
  /\ clock m2 = clock m1.
Proof.
  intros Hguard.
  destruct o; cbn [call needs_target command_of] in *;
    try (destruct Hguard as [Hguard|Hguard]; [discriminate|]).
  - unfold get_active_file, bind.
    destruct (_send_command _ w m) as [[result|e] m1]; cbn; auto.
    destruct result as [| | | | | |d]; cbn; auto.
    destruct (truthy (dict_get d "file_path" VNone)); cbn; auto.
  - unfold set_file, bind, set_self. cbn [fst snd].
    change {| self := set_file_path (VStr path) (self m); clock := clock m;
              next_sock := next_sock m; trace := trace m |}
      with (retarget (VStr path) m).
    rewrite oblivious_send_command. cbn. auto.
  - unfold draw_circle, bind. rewrite require_file_path_run, Hguard. auto.
  - unfold draw_rectangle, bind. rewrite require_file_path_run, Hguard. auto.
  - unfold get_elements, bind. rewrite require_file_path_run, Hguard.
    cbv beta iota.
    destruct (_send_command _ w m) as [[result|e] m1]; cbn; auto.
  - unfold get_element_by_id, bind. rewrite require_file_path_run, Hguard.
    auto.
Qed.

(** An operation that hands its result on returns what its send returns. *)
Lemma call_plain_returned (o : operation) (w : World) (m m' : Machine)
  (v : value) :
  passes_guard o m -> plain_result o = true ->
  _send_command (command_of o (file_path (self m))) w m = (Returned v, m') ->
  call o w m = (Returned v, retarget (target_before_send o m) m').
Proof.
  intros Hguard Hplain Hsend.
  assert (Hkeep : retarget (file_path (self m)) m' = m').
  { rewrite <- (oblivious_keeps_target _ w m
                  (oblivious_send_command
                     (command_of o (file_path (self m))))).
    rewrite Hsend. apply retarget_same. }
  destruct o; try discriminate;
    cbn [call needs_target command_of target_before_send] in *;
    try (destruct Hguard as [Hguard|Hguard]; [discriminate|]).
  - unfold set_file, bind, set_self. cbn [fst snd].
    change {| self := set_file_path (VStr path) (self m); clock := clock m;
              next_sock := next_sock m; trace := trace m |}
      with (retarget (VStr path) m).
    rewrite oblivious_send_command, Hsend. reflexivity.
  - unfold draw_circle, bind. rewrite require_file_path_run, Hguard.
    rewrite Hsend, Hkeep. reflexivity.
  - unfold draw_rectangle, bind. rewrite require_file_path_run, Hguard.
    rewrite Hsend, Hkeep. reflexivity.
  - unfold get_element_by_id, bind. rewrite require_file_path_run, Hguard.
    rewrite Hsend, Hkeep. reflexivity.
Qed.

(** X1. Once the session is connected and the editor answers with
    success, [get_active_file] returns the result dict as it came, keeps
    the handle, and adopts the result's [file_path] as the target when
    that is truthy; a result without one leaves the target as it was. *)
Theorem get_active_file_adopts_target (w : World) (m m1 : Machine)
  (h : WebSocket) (d r : list (string * value)) :
  _ensure_connected w m = (Returned tt, m1) ->
  ws (self m1) = Some h ->
  ws_send w (clock m1) (sock h)
    (VDict [("type", VStr "get_active_file")]) = None ->
  ws_recv w (S (clock m1)) (sock h) = RecvDecoded (VDict d) ->
  truthy (dict_get d "success" VNone) = true ->
  dict_get d "result" (VDict []) = VDict r ->
  fst (get_active_file w m) = Returned (VDict r) /\
  file_path (self (snd (get_active_file w m))) =
    (if truthy (dict_get r "file_path" VNone)
     then dict_get r "file_path" VNone
     else file_path (self m)) /\
  ws (self (snd (get_active_file w m))) = Some h.
Proof.
  intros Hconn Hws Hsend Hrecv Hsuccess Hresult.
  pose proof (ensure_connected_keeps_target w m) as Hfp.
  rewrite Hconn in Hfp. cbn [snd] in Hfp.
  unfold get_active_file, bind.
  rewrite (send_command_connected w m m1) by assumption.
  rewrite (exchange_accepted w m1 h _ d) by assumption.
  rewrite Hresult. cbn [value_get]. unfold ret. cbv beta iota.
  destruct (truthy (dict_get r "file_path" VNone));
    cbn; rewrite ?Hfp; auto.
Qed.

(** The editor reports the open file; the target follows. *)
Lemma get_active_file_adopts_target_witness :
  file_path
    (self (snd (get_active_file (running_editor (active_file "/tmp/x.luke"))
                  (imported (running_editor (active_file "/tmp/x.luke"))))))
  = VStr "/tmp/x.luke".
Proof.
  refine (proj1 (proj2 (get_active_file_adopts_target
            (running_editor (active_file "/tmp/x.luke"))
            (imported (running_editor (active_file "/tmp/x.luke")))
            (snd (_ensure_connected
                    (running_editor (active_file "/tmp/x.luke"))
                    (imported (running_editor (active_file "/tmp/x.luke")))))
            {| sock := 0; connected := true |}
            [("success", VBool true);
             ("result", VDict [("file_path", VStr "/tmp/x.luke")])]
            [("file_path", VStr "/tmp/x.luke")]
            _ _ _ _ _ _)));
    vm_compute; reflexivity.
Defined.

(** X2. When the editor answers [get_active_file] with success and a
    result that is not a dict, the call raises the bare [AttributeError]
    of the failed [get]: the failure is not wrapped as a communication
    failure, the handle is neither closed nor dropped, and the target is
    left alone. *)
Theorem get_active_file_result_not_a_dict (w : World) (m m1 : Machine)
  (h : WebSocket) (d : list (string * value)) :
  _ensure_connected w m = (Returned tt, m1) ->
  ws (self m1) = Some h ->
  ws_send w (clock m1) (sock h)
    (VDict [("type", VStr "get_active_file")]) = None ->
  ws_recv w (S (clock m1)) (sock h) = RecvDecoded (VDict d) ->
  truthy (dict_get d "success" VNone) = true ->
  (forall r, dict_get d "result" (VDict []) <> VDict r) ->
  fst (get_active_file w m) =
    Raised (Raise AttributeError
      ("'" ++ type_name (dict_get d "result" (VDict [])) ++
       "' object has no attribute 'get'")) /\
  ws (self (snd (get_active_file w m))) = Some h /\
  trace (snd (get_active_file w m)) =
    (trace m1 ++ [EvSend (sock h) (VDict [("type", VStr "get_active_file")]);
                  EvRecv (sock h)])%list /\
  file_path (self (snd (get_active_file w m))) = file_path (self m).
Proof.
  intros Hconn Hws Hsend Hrecv Hsuccess Hnot.
  pose proof (ensure_connected_keeps_target w m) as Hfp.
  rewrite Hconn in Hfp. cbn [snd] in Hfp.
  unfold get_active_file, bind.
  rewrite (send_command_connected w m m1) by assumption.
  rewrite (exchange_accepted w m1 h _ d) by assumption.
  destruct (dict_get d "result" (VDict [])) as [| | | | | |r] eqn:Hres;
    try (cbn; rewrite ?Hfp; auto; fail).
  exfalso. exact (Hnot r eq_refl).
Qed.

(** The editor answers with a list where a dict is due. *)
Lemma get_active_file_result_not_a_dict_witness :
  fst (get_active_file
         (running_editor (VDict [("success", VBool true);
                                 ("result", VList [])]))
         (imported
            (running_editor (VDict [("success", VBool true);
                                    ("result", VList [])])))) =
  Raised (Raise AttributeError "'list' object has no attribute 'get'").
Proof.
  refine (proj1 (get_active_file_result_not_a_dict
            (running_editor (VDict [("success", VBool true);
                                    ("result", VList [])]))
            (imported
               (running_editor (VDict [("success", VBool true);
                                       ("result", VList [])])))
            (snd (_ensure_connected
                    (running_editor (VDict [("success", VBool true);
                                            ("result", VList [])]))
                    (imported
                       (running_editor (VDict [("success", VBool true);
                                               ("result", VList [])])))))
            {| sock := 0; connected := true |}
            [("success", VBool true); ("result", VList [])]
            _ _ _ _ _ _));
    try (vm_compute; reflexivity).
  intros r. vm_compute. discriminate.
Defined.

(** ** Replies *)

Lemma exchange_undecodable (w : World) (m : Machine) (h : WebSocket)
  (command : value) (msg : string) :
  ws (self m) = Some h ->
  ws_send w (clock m) (sock h) command = None ->
  ws_recv w (S (clock m)) (sock h) = RecvUndecodable msg ->
  try_except (exchange command) teardown w m =
    (Raised (Raise Exception (communicate_prefix ++ msg)),
     exchanged m false 2
       [EvSend (sock h) command; EvRecv (sock h); EvClose (sock h)]).
Proof.
  intros Hws Hsend Hrecv.
  unfold try_except, exchange, bind, get_self, emit, ask. rewrite Hws.
  cbn. rewrite Hsend. cbn. rewrite Hrecv.
  unfold raise, teardown, bind, get_self. cbn.
  rewrite Hws. unfold emit, set_self, raise, exchanged. cbn.
  rewrite <- !app_assoc. reflexivity.
Qed.

Lemma exchange_not_a_dict (w : World) (m : Machine) (h : WebSocket)
  (command response : value) :
  ws (self m) = Some h ->
  ws_send w (clock m) (sock h) command = None ->
  ws_recv w (S (clock m)) (sock h) = RecvDecoded response ->
  (forall d, response <> VDict d) ->
  try_except (exchange command) teardown w m =
    (Raised (Raise Exception
       (communicate_prefix ++
        "'" ++ type_name response ++ "' object has no attribute 'get'")),
     exchanged m false 2
       [EvSend (sock h) command; EvRecv (sock h); EvClose (sock h)]).
Proof.
  intros Hws Hsend Hrecv Hnot.
  unfold try_except, exchange, bind, get_self, emit, ask. rewrite Hws.
  cbn. rewrite Hsend. cbn. rewrite Hrecv.
  destruct response as [| | | | | |d];
    try (unfold value_get, raise, teardown, bind, get_self; cbn;
         rewrite Hws; unfold emit, set_self, raise, exchanged; cbn;
         rewrite <- !app_assoc; reflexivity).
  exfalso. exact (Hnot d eq_refl).
Qed.

(** X3. Once the session is connected and the editor answers with
    success, [set_file], [draw_circle], [draw_rectangle] and
    [get_element_by_id] return the reply's [result] as it came, and the
    empty dict when the reply has no [result]; the handle is kept and the
    call leaves one send and one receive in the trace. *)
Theorem accepted_reply_is_unwrapped (o : operation) (w : World)
  (m m1 : Machine) (h : WebSocket) (d : list (string * value)) :
  passes_guard o m -> plain_result o = true ->
  _ensure_connected w m = (Returned tt, m1) ->
  ws (self m1) = Some h ->
  ws_send w (clock m1) (sock h) (command_of o (file_path (self m))) = None ->
  ws_recv w (S (clock m1)) (sock h) = RecvDecoded (VDict d) ->
  truthy (dict_get d "success" VNone) = true ->
  fst (call o w m) = Returned (dict_get d "result" (VDict [])) /\
  (dict_lookup d "result" = None -> fst (call o w m) = Returned (VDict [])) /\
  ws (self (snd (call o w m))) = Some h /\
  trace (snd (call o w m)) =
    (trace m1 ++ [EvSend (sock h) (command_of o (file_path (self m)));
                  EvRecv (sock h)])%list.
Proof.
  intros Hguard Hplain Hconn Hws Hsend Hrecv Hsuccess.
  assert (Hcall : call o w m =
    (Returned (dict_get d "result" (VDict [])),
     retarget (target_before_send o m)
       (exchanged m1 true 2
          [EvSend (sock h) (command_of o (file_path (self m)));
           EvRecv (sock h)]))).
  { apply call_plain_returned; [assumption | assumption |].
    rewrite (send_command_connected w m m1) by assumption.
    apply exchange_accepted; assumption. }
  rewrite Hcall. cbn [fst snd]. repeat split; auto.
  intros Hnone. unfold dict_get. rewrite Hnone. reflexivity.
Qed.

(** The editor answers a lookup with success and nothing else. *)
Lemma accepted_reply_is_unwrapped_witness :
  fst (call (OpGetElementById "c1")
         (running_editor (VDict [("success", VBool true)]))
         (after_calls (running_editor (VDict [("success", VBool true)]))
            [OpSetFile "/tmp/x.luke"])) = Returned (VDict []).
Proof.
  refine (proj1 (proj2 (accepted_reply_is_unwrapped (OpGetElementById "c1")
            (running_editor (VDict [("success", VBool true)]))
            (after_calls (running_editor (VDict [("success", VBool true)]))
               [OpSetFile "/tmp/x.luke"])
            (after_calls (running_editor (VDict [("success", VBool true)]))
               [OpSetFile "/tmp/x.luke"])
            {| sock := 0; connected := true |}
            [("success", VBool true)] _ _ _ _ _ _ _)) _);
    try (right; vm_compute; reflexivity); vm_compute; reflexivity.
Defined.

(** X4. While the object holds a connected handle, an operation that
    gets past its guard and whose send does not raise goes straight to
    that handle: the call leaves the send and then the receive in the
    trace and nothing before them, so there is no discovery pass and no
    connection attempt. *)
Theorem live_handle_is_reused (o : operation) (w : World) (m : Machine)
  (h : WebSocket) :
  passes_guard o m ->
  ws (self m) = Some h -> connected h = true ->
  ws_send w (clock m) (sock h) (command_of o (file_path (self m))) = None ->
  exists rest,
    trace (snd (call o w m)) =
      (trace m ++ EvSend (sock h) (command_of o (file_path (self m)))
               :: EvRecv (sock h) :: rest)%list /\
    (rest = [] \/ rest = [EvClose (sock h)]).
Proof.
  intros Hguard Hws Hconn Hsend.
  destruct (call_session o w m Hguard) as (_ & _ & Ht & _). rewrite Ht.
  assert (Hlive : ws_live (ws (self m)) = true) by (rewrite Hws; exact Hconn).
  rewrite (send_command_connected w m m)
    by (apply ensure_connected_live; exact Hlive).
  destruct (ws_recv w (S (clock m)) (sock h)) as [msg|msg|response] eqn:Hrecv.
  - rewrite (exchange_recv_fault w m h _ msg) by assumption.
    exists [EvClose (sock h)]. auto.
  - rewrite (exchange_undecodable w m h _ msg) by assumption.
    exists [EvClose (sock h)]. auto.
  - destruct response as [| | | | | |d];
      try (rewrite (exchange_not_a_dict w m h _ _ Hws Hsend Hrecv)
             by discriminate;
           exists [EvClose (sock h)]; auto; fail).
    destruct (truthy (dict_get d "success" VNone)) eqn:Hsuccess.
    + rewrite (exchange_accepted w m h _ d) by assumption.
      exists []. auto.
    + rewrite (exchange_rejected w m h _ d) by assumption.
      exists [EvClose (sock h)]. auto.
Qed.

(** The circle goes out on the handle that [set_file] opened. *)
Lemma live_handle_is_reused_witness :
  exists rest,
    trace (snd (call (OpDrawCircle "c1" (VInt 10) (VInt 20) (VInt 5) None)
                  (running_editor ack)
                  (after_calls (running_editor ack)
                     [OpSetFile "/tmp/x.luke"]))) =
      (trace (after_calls (running_editor ack) [OpSetFile "/tmp/x.luke"]) ++
       EvSend (sock {| sock := 0; connected := true |})
         (command_of (OpDrawCircle "c1" (VInt 10) (VInt 20) (VInt 5) None)
            (file_path
               (self (after_calls (running_editor ack)
                        [OpSetFile "/tmp/x.luke"]))))
       :: EvRecv (sock {| sock := 0; connected := true |}) :: rest)%list /\
    (rest = [] \/
     rest = [EvClose (sock {| sock := 0; connected := true |})]).
Proof.
  refine (live_handle_is_reused
            (OpDrawCircle "c1" (VInt 10) (VInt 20) (VInt 5) None)
            (running_editor ack)
            (after_calls (running_editor ack) [OpSetFile "/tmp/x.luke"])
            {| sock := 0; connected := true |} _ _ _ _);
    try (right; vm_compute; reflexivity); vm_compute; reflexivity.
Defined.

(** X5. A reply that is not JSON, or is JSON but not an object, is
    reported like a transport fault: the operation raises the
    communication failure, carrying the decoder's message or the message
    of the failed [get], and closes and drops the handle. *)
Theorem malformed_reply_is_communication_failure (o : operation)
  (w : World) (m m1 : Machine) (h : WebSocket) (msg : string) :
  passes_guard o m ->
  _ensure_connected w m = (Returned tt, m1) ->
  ws (self m1) = Some h ->
  ws_send w (clock m1) (sock h) (command_of o (file_path (self m))) = None ->
  ws_recv w (S (clock m1)) (sock h) = RecvUndecodable msg \/
  (exists response,
     ws_recv w (S (clock m1)) (sock h) = RecvDecoded response /\
     (forall d, response <> VDict d) /\
     msg = "'" ++ type_name response ++ "' object has no attribute 'get'") ->
  fst (call o w m) = Raised (Raise Exception (communicate_prefix ++ msg)) /\
  ws (self (snd (call o w m))) = None /\
  trace (snd (call o w m)) =
    (trace m1 ++ [EvSend (sock h) (command_of o (file_path (self m)));
                  EvRecv (sock h); EvClose (sock h)])%list.
Proof.
  intros Hguard Hconn Hws Hsend Hrecv.
  assert (Hcall : call o w m =
    (Raised (Raise Exception (communicate_prefix ++ msg)),
     retarget (target_before_send o m)
       (exchanged m1 false 2
          [EvSend (sock h) (command_of o (file_path (self m)));
           EvRecv (sock h); EvClose (sock h)]))).
  { apply call_raised; [exact Hguard|].
    rewrite (send_command_connected w m m1) by assumption.
    destruct Hrecv as [Hrecv | (response & Hrecv & Hnot & ->)].
    - apply exchange_undecodable; assumption.
    - apply exchange_not_a_dict; assumption. }
  rewrite Hcall. cbn [fst snd]. auto.
Qed.

(** The editor answers with something that is not JSON. *)
Lemma malformed_reply_is_communication_failure_witness :
  fst (call (OpSetFile "/tmp/x.luke") garbling_editor
         (imported garbling_editor)) =
  Raised (Raise Exception
            (communicate_prefix ++
             "Expecting value: line 1 column 1 (char 0)")).
Proof.
  refine (proj1 (malformed_reply_is_communication_failure
            (OpSetFile "/tmp/x.luke") garbling_editor
            (imported garbling_editor)
            (snd (_ensure_connected garbling_editor
                    (imported garbling_editor)))
            {| sock := 0; connected := true |}
            "Expecting value: line 1 column 1 (char 0)" _ _ _ _ _));
    try (left; vm_compute; reflexivity); vm_compute; reflexivity.
Defined.

(** X6. A reply object without a [success] entry counts as a rejection,
    and one that has no [error] entry either is reported with the message
    "Unknown error" after the prefix; the handle is dropped. *)
Theorem reply_without_success_is_rejected (o : operation) (w : World)
  (m m1 : Machine) (h : WebSocket) (d : list (string * value)) :
  passes_guard o m ->
  _ensure_connected w m = (Returned tt, m1) ->
  ws (self m1) = Some h ->
  ws_send w (clock m1) (sock h) (command_of o (file_path (self m))) = None ->
  ws_recv w (S (clock m1)) (sock h) = RecvDecoded (VDict d) ->
  dict_lookup d "success" = None ->
  dict_lookup d "error" = None ->
  fst (call o w m) =
    Raised (Raise Exception
      "Failed to communicate with VSCode extension: Unknown error") /\
  ws (self (snd (call o w m))) = None.
Proof.
  intros Hguard Hconn Hws Hsend Hrecv Hsuccess Herror.
  rewrite (call_rejected o w m m1 h d) by
    (try assumption; unfold dict_get; rewrite Hsuccess; reflexivity).
  unfold dict_get. rewrite Herror. cbn. auto.
Qed.

(** The editor answers with the empty object. *)
Lemma reply_without_success_is_rejected_witness :
  fst (call (OpSetFile "/tmp/x.luke") (running_editor (VDict []))
         (imported (running_editor (VDict [])))) =
  Raised (Raise Exception
    "Failed to communicate with VSCode extension: Unknown error").
Proof.
  refine (proj1 (reply_without_success_is_rejected
            (OpSetFile "/tmp/x.luke") (running_editor (VDict []))
            (imported (running_editor (VDict [])))
            (snd (_ensure_connected (running_editor (VDict []))
                    (imported (running_editor (VDict [])))))
            {| sock := 0; connected := true |} [] _ _ _ _ _ _ _));
    try (left; vm_compute; reflexivity); vm_compute; reflexivity.
Defined.

(** ** Envelopes *)

(** X7. Every operation that gets past its guard sends, once the
    session is connected, exactly one command: the envelope of its type,
    with the current target as [file_path] (for [set_file] the path it is
    given; none for [get_active_file]) and, for the shapes, the fields in
    the order id, x, y, size, colour, the colour defaulting to
    ["#000000"]. Nothing else is added to what has been sent, whatever
    the editor answers. *)
Theorem every_operation_sends_its_envelope (o : operation) (w : World)
  (m m1 : Machine) :
  passes_guard o m ->
  _ensure_connected w m = (Returned tt, m1) ->
  sent (trace (snd (call o w m))) =
    (sent (trace m) ++ [command_of o (file_path (self m))])%list.
Proof.
  intros Hguard Hconn.
  destruct (call_session o w m Hguard) as (_ & _ & Ht & _). rewrite Ht.
  apply send_command_sent with (m1 := m1). exact Hconn.
Qed.

(** A rectangle, its colour left out, after [set_file]. *)
Lemma every_operation_sends_its_envelope_witness :
  sent (trace (snd (call (OpDrawRectangle "r1" (VInt 1) (VInt 2) (VInt 30)
                            (VInt 40) None)
                      (running_editor ack)
                      (after_calls (running_editor ack)
                         [OpSetFile "/tmp/x.luke"])))) =
  (sent (trace (after_calls (running_editor ack) [OpSetFile "/tmp/x.luke"]))
   ++ [command_of (OpDrawRectangle "r1" (VInt 1) (VInt 2) (VInt 30)
                     (VInt 40) None)
         (file_path (self (after_calls (running_editor ack)
                             [OpSetFile "/tmp/x.luke"])))])%list.
Proof.
  refine (every_operation_sends_its_envelope
            (OpDrawRectangle "r1" (VInt 1) (VInt 2) (VInt 30) (VInt 40) None)
            (running_editor ack)
            (after_calls (running_editor ack) [OpSetFile "/tmp/x.luke"])
            (after_calls (running_editor ack) [OpSetFile "/tmp/x.luke"])
            _ _);
    try (right; vm_compute; reflexivity); vm_compute; reflexivity.
Defined.

(** ** Getting connected *)

Lemma ensure_connected_sends_nothing (w : World) (m : Machine) :
  sent (trace (snd (_ensure_connected w m))) = sent (trace m).
Proof.
  destruct (ws_live (ws (self m))) eqn:Hl.
  - rewrite ensure_connected_live by assumption. reflexivity.
  - destruct (ensure_connected_run w m Hl)
      as (r & m' & evs & Hrun & Ht & _ & _ & _ & Hcases).
    rewrite Hrun. cbn [snd]. rewrite Ht, sent_app, <- (sent_network evs).
    destruct Hcases as [(_ & -> & _) | [(port & _ & -> & _)
                       | (port & _ & -> & _)]];
      cbn; apply app_nil_r.
Qed.

(** X8. Without a live handle, when the discovery pass leaves no port or
    leaves port [0], an operation that gets past its guard raises
    "server not found" after that one pass: it attempts no connection and
    sends nothing. *)
Theorem no_port_means_server_not_found (o : operation) (w : World)
  (m : Machine) :
  passes_guard o m ->
  ws_live (ws (self m)) = false ->
  port_truthy (port_after_discovery w (clock m) (vscode_port (self m)))
    = false ->
  fst (call o w m) = Raised (Raise Exception server_not_found_msg) /\
  exists evs,
    trace (snd (call o w m)) = (trace m ++ evs)%list /\
    passes evs = 1%nat /\ network evs = [].
Proof.
  intros Hguard Hdead Hport.
  destruct (ensure_connected_run w m Hdead)
    as (r & m1 & evs & Hrun & Ht & Hp & _ & Hafter & Hcases).
  rewrite <- Hafter in Hport.
  assert (Hcase : r = Raised (Raise Exception server_not_found_msg) /\
                  network evs = []).
  { destruct Hcases as [(-> & Hn & _) | [(port & _ & _ & _ & _ & Hs & Hnz)
                       | (port & _ & _ & _ & _ & Hs & Hnz)]];
      [auto | |];
      assert (port_truthy (vscode_port (self m1)) = true)
        by (apply port_truthy_some; eauto); congruence. }
  destruct Hcase as (-> & Hn).
  assert (Hsend : _send_command (command_of o (file_path (self m))) w m =
                  (Raised (Raise Exception server_not_found_msg), m1)).
  { unfold _send_command, bind. rewrite Hrun. reflexivity. }
  rewrite (call_raised o w m m1 _ Hguard Hsend). cbn [fst snd retarget trace].
  split; [reflexivity|]. exists evs. auto.
Qed.

(** The port file holds [0]: the pass announces port 0 and the operation
    reports that the server was not found. *)
Lemma no_port_means_server_not_found_witness :
  vscode_port (self (imported zero_port_editor)) = Some 0 /\
  fst (call (OpSetFile "/tmp/x.luke") zero_port_editor
         (imported zero_port_editor)) =
  Raised (Raise Exception server_not_found_msg).
Proof.
  split; [vm_compute; reflexivity|].
  refine (proj1 (no_port_means_server_not_found (OpSetFile "/tmp/x.luke")
            zero_port_editor (imported zero_port_editor) _ _ _));
    try (left; vm_compute; reflexivity); vm_compute; reflexivity.
Defined.

(** X9. Without a live handle, when the discovery pass leaves a port
    other than [0] and the connection to it is refused, an operation that
    gets past its guard raises "failed to connect", a failure distinct
    from "server not found": it has made one pass and one attempt, holds
    no handle afterwards and has sent nothing. *)
Theorem refused_connection_is_reported (o : operation) (w : World)
  (m : Machine) (port : Z) :
  passes_guard o m ->
  ws_live (ws (self m)) = false ->
  port_after_discovery w (clock m) (vscode_port (self m)) = Some port ->
  port <> 0 ->
  (forall t, create_connection w t port <> None) ->
  fst (call o w m) = Raised (Raise Exception connect_failed_msg) /\
  ws (self (snd (call o w m))) = None /\
  sent (trace (snd (call o w m))) = sent (trace m) /\
  exists evs,
    trace (snd (call o w m)) = (trace m ++ evs)%list /\
    passes evs = 1%nat /\ network evs = [EvConnect port None].
Proof.
  intros Hguard Hdead Hport Hnz Hrefused.
  unfold _ensure_connected.
  destruct (discover_run w m)
    as (m0 & evs0 & Hrun0 & (Ht0 & Hn0 & _ & _ & _) & Hp0 & Hport0 & _).
  rewrite Hport in Hport0.
  destruct (connect_run w m0 port Hport0 Hnz)
    as (m1 & evs1 & Hrun1 & Ht1 & Hp1 & _ & _ & _ & Hconn).
  specialize (Hrefused (clock m0)).
  destruct (create_connection w (clock m0) port) as [msg|];
    [|congruence].
  destruct Hconn as (Hws1 & _ & Hn1).
  assert (Hens : _ensure_connected w m =
                 (Raised (Raise Exception connect_failed_msg), m1)).
  { unfold _ensure_connected, bind, get_self. rewrite Hdead, Hrun0.
    assert (Htr : port_truthy (vscode_port (self m0)) = true)
      by (apply port_truthy_some; eauto).
    rewrite Htr, Hrun1, Hws1. reflexivity. }
  assert (Hsend : _send_command (command_of o (file_path (self m))) w m =
                  (Raised (Raise Exception connect_failed_msg), m1)).
  { unfold _send_command, bind. rewrite Hens. reflexivity. }
  rewrite (call_raised o w m m1 _ Hguard Hsend). cbn [fst snd retarget trace].
  pose proof (ensure_connected_sends_nothing w m) as Hsent.
  rewrite Hens in Hsent. cbn [snd] in Hsent.
  repeat split; auto.
  exists (evs0 ++ evs1)%list.
  rewrite Ht1, Ht0, <- app_assoc, passes_app, network_app, Hp0, Hp1, Hn0, Hn1.
  auto.
Qed.

(** The editor has stopped but its port is still remembered. *)
Lemma refused_connection_is_reported_witness :
  fst (call (OpSetFile "/tmp/x.luke") stopped_editor
         (imported stopped_editor)) =
  Raised (Raise Exception connect_failed_msg).
Proof.
  refine (proj1 (refused_connection_is_reported (OpSetFile "/tmp/x.luke")
            stopped_editor (imported stopped_editor) 9931 _ _ _ _ _));
    try (left; vm_compute; reflexivity);
    try (vm_compute; reflexivity).
  - discriminate.
  - intros t. vm_compute. discriminate.
Defined.

(** ** The target *)

(** X10. The empty path counts as no target: after [set_file("")],
    whatever the editor made of it, every drawing or query operation
    stops at its guard and touches nothing. *)
Theorem empty_path_is_no_target (o : operation) (w : World) (m : Machine) :
  needs_target o = true ->
  call o w (snd (set_file "" w m)) =
    (Raised (Raise Exception no_file_path_msg), snd (set_file "" w m)).
Proof.
  intros Hneeds. apply call_guarded; [exact Hneeds|].
  assert (Hfp : file_path (self (snd (set_file "" w m))) = VStr "").
  { change (set_file "" w m) with
      (_send_command (VDict [("type", VStr "set_file");
                             ("file_path", VStr "")])
         w (retarget (VStr "") m)).
    rewrite (oblivious_keeps_target _ w _ (oblivious_send_command _)).
    reflexivity. }
  rewrite Hfp. reflexivity.
Qed.

(** The editor acknowledges the empty path; drawing still stops. *)
Lemma empty_path_is_no_target_witness :
  fst (call OpGetElements (running_editor ack)
         (snd (set_file "" (running_editor ack)
                 (imported (running_editor ack))))) =
  Raised (Raise Exception no_file_path_msg).
Proof.
  rewrite (empty_path_is_no_target OpGetElements (running_editor ack)
             (imported (running_editor ack)) eq_refl).
  reflexivity.
Defined.

(** X11. The drawing and query operations never change the target,
    whether they return or raise; only [set_file] and [get_active_file]
    write it. *)
Theorem guarded_operations_keep_target (o : operation) (w : World)
  (m : Machine) :
  needs_target o = true ->
  file_path (self (snd (call o w m))) = file_path (self m).
Proof.
  intros Hneeds.
  destruct (truthy (file_path (self m))) eqn:Hfp.
  - pose proof (oblivious_keeps_target _ w m
                  (oblivious_send_command
                     (command_of o (file_path (self m))))) as Hkeep.
    destruct (_send_command (command_of o (file_path (self m))) w m)
      as [[v|e] m'] eqn:Hsend; cbn [snd] in Hkeep.
    + destruct (plain_result o) eqn:Hplain.
      * rewrite (call_plain_returned o w m m' v (or_intror Hfp) Hplain Hsend).
        destruct o; try discriminate; cbn; first [reflexivity | exact Hkeep].
      * destruct o; try discriminate. cbn [call command_of] in *.
        unfold get_elements, bind. rewrite require_file_path_run, Hfp.
        rewrite Hsend. cbn. exact Hkeep.
    + rewrite (call_raised o w m m' e (or_intror Hfp) Hsend).
      destruct o; try discriminate; cbn; first [reflexivity | exact Hkeep].
  - rewrite call_guarded by assumption. reflexivity.
Qed.

(** A rejected circle leaves the target where [set_file] put it. *)
Lemma guarded_operations_keep_target_witness :
  file_path
    (self (snd (call (OpDrawCircle "c1" (VInt 10) (VInt 20) (VInt 5) None)
                  rejecting_editor
                  (after_calls rejecting_editor [OpSetFile "/tmp/x.luke"]))))
  = file_path (self (after_calls rejecting_editor [OpSetFile "/tmp/x.luke"])).
Proof.
  exact (guarded_operations_keep_target
           (OpDrawCircle "c1" (VInt 10) (VInt 20) (VInt 5) None)
           rejecting_editor
           (after_calls rejecting_editor [OpSetFile "/tmp/x.luke"])
           eq_refl).
Defined.

(** ** No retries *)

Lemma try_exchange_bounded (w : World) (m : Machine) (h : WebSocket)
  (command : value) :
  ws (self m) = Some h ->
  exists evs,
    trace (snd (try_except (exchange command) teardown w m)) =
      (trace m ++ evs)%list /\
    passes evs = 0%nat /\ connect_attempts evs = 0%nat /\
    sent evs = [command].
Proof.
  intros Hws. unfold try_except.
  destruct (exchange_run w m h command Hws)
    as (r & m2 & evs & Hex & Hself & _ & Ht & Hevs).
  rewrite Hex.
  assert (Hmeasure : passes evs = 0%nat /\ connect_attempts evs = 0%nat /\
                     sent evs = [command])
    by (destruct Hevs as [-> | ->]; auto).
  destruct Hmeasure as (Hp & Hc & Hs).
  destruct r as [v|e]; cbn [snd].
  - exists evs. auto.
  - destruct (teardown_run w m2 e) as (m3 & Htd & _ & _ & _ & _ & Ht3).
    rewrite Htd. cbn [snd]. rewrite Hself, Hws in Ht3.
    exists (evs ++ [EvClose (sock h)])%list.
    rewrite Ht3, Ht, <- app_assoc, passes_app, connect_attempts_app, sent_app,
      Hp, Hc, Hs.
    auto.
Qed.

Lemma send_command_bounded (w : World) (m : Machine) (command : value) :
  exists evs,
    trace (snd (_send_command command w m)) = (trace m ++ evs)%list /\
    (passes evs <= 1)%nat /\ (connect_attempts evs <= 1)%nat /\
    (length (sent evs) <= 1)%nat.
Proof.
  destruct (ws_live (ws (self m))) eqn:Hl.
  - rewrite (send_command_connected w m m)
      by (apply ensure_connected_live; exact Hl).
    unfold ws_live in Hl. destruct (ws (self m)) as [h|] eqn:Hws;
      [|discriminate].
    destruct (try_exchange_bounded w m h command Hws)
      as (evs & Ht & Hp & Hc & Hs).
    exists evs. rewrite Ht, Hp, Hc, Hs. cbn. auto.
  - destruct (ensure_connected_run w m Hl)
      as (r & m1 & evs1 & Hrun & Ht1 & Hp1 & _ & _ & Hcases).
    assert (Hc1 : (connect_attempts evs1 <= 1)%nat /\ sent evs1 = []).
    { rewrite <- connect_attempts_network, <- (sent_network evs1).
      destruct Hcases as [(_ & -> & _) | [(port & _ & -> & _)
                         | (port & _ & -> & _)]]; cbn; auto. }
    destruct Hc1 as (Hc1 & Hs1).
    destruct Hcases as [(-> & _) | [(port & -> & _)
                       | (port & -> & _ & Hws & _)]].
    + unfold _send_command, bind. rewrite Hrun. cbn [snd].
      exists evs1. rewrite Hp1, Hs1. cbn. auto.
    + unfold _send_command, bind. rewrite Hrun. cbn [snd].
      exists evs1. rewrite Hp1, Hs1. cbn. auto.
    + rewrite (send_command_connected w m m1) by assumption.
      destruct (try_exchange_bounded w m1 _ command Hws)
        as (evs & Ht & Hp & Hc & Hs).
      exists (evs1 ++ evs)%list.
      rewrite Ht, Ht1, <- app_assoc, passes_app, connect_attempts_app,
        sent_app, Hp1, Hp, Hc, Hs1, Hs.
      cbn. repeat split; auto; lia.
Qed.

(** X12. No operation retries anything. Whatever the machine and the
    world, one call adds to the trace at most one discovery pass, at most
    one connection attempt and at most one sent command. *)
Theorem no_operation_retries (o : operation) (w : World) (m : Machine) :
  exists evs,
    trace (snd (call o w m)) = (trace m ++ evs)%list /\
    (passes evs <= 1)%nat /\ (connect_attempts evs <= 1)%nat /\
    (length (sent evs) <= 1)%nat.
Proof.
  assert (Hpast : passes_guard o m ->
    exists evs,
      trace (snd (call o w m)) = (trace m ++ evs)%list /\
      (passes evs <= 1)%nat /\ (connect_attempts evs <= 1)%nat /\
      (length (sent evs) <= 1)%nat).
  { intros Hguard.
    destruct (call_session o w m Hguard) as (_ & _ & Ht & _). rewrite Ht.
    apply send_command_bounded. }
  destruct (needs_target o) eqn:Hneeds;
    [destruct (truthy (file_path (self m))) eqn:Hfp|].
  - apply Hpast. right. exact Hfp.
  - rewrite call_guarded by assumption. exists []. cbn.
    rewrite app_nil_r. auto.
  - apply Hpast. left. exact Hneeds.
Qed.

(** ** Tools *)

(** X13. A tool call whose arguments are those of an operation is that
    operation on the module's object: it ends as the operation ends and
    leaves the machine as the operation leaves it. Only [set_file]
    differs in what it hands back: a fixed status with the path, not what
    the editor answered. A colour left out of the arguments is sent as
    ["#000000"]. *)
Theorem tool_call_is_the_operation (o : operation) (w : World) (m : Machine) :
  call_tool (tool_name o) (tool_arguments o) w m =
    match call o w m with
    | (Returned v, m') =>
        (ToolResult match o with
                    | OpSetFile path =>
                        VDict [("status", VStr "success");
                               ("file_path", VStr path)]
                    | _ => v
                    end, m')
    | (Raised e, m') => (ToolRaised e, m')
    end.
Proof.
  destruct o as [|path|id x y radius [c|]|id x y width height [c|]| |id];
    reflexivity.
Qed.

(** X14. A tool name that is none of the six has no effect at all: the
    call returns [None], which is rendered as [null], and the machine is
    left untouched. *)
Theorem unknown_tool_does_nothing (name : string)
  (arguments : list (string * value)) (w : World) (m : Machine) :
  (forall o, tool_name o <> name) ->
  call_tool name arguments w m = (ToolResult VNone, m).
Proof.
  intros Hunknown. unfold call_tool.
  destruct (String.eqb_spec name "get_active_file") as [->|_];
    [exfalso; exact (Hunknown OpGetActiveFile eq_refl)|].
  destruct (String.eqb_spec name "set_file") as [->|_];
    [exfalso; exact (Hunknown (OpSetFile "") eq_refl)|].
  destruct (String.eqb_spec name "draw_circle") as [->|_];
    [exfalso;
     exact (Hunknown (OpDrawCircle "" VNone VNone VNone None) eq_refl)|].
  destruct (String.eqb_spec name "draw_rectangle") as [->|_];
    [exfalso;
     exact (Hunknown (OpDrawRectangle "" VNone VNone VNone VNone None)
              eq_refl)|].
  destruct (String.eqb_spec name "get_elements") as [->|_];
    [exfalso; exact (Hunknown OpGetElements eq_refl)|].
  destruct (String.eqb_spec name "get_element_by_id") as [->|_];
    [exfalso; exact (Hunknown (OpGetElementById "") eq_refl)|].
  reflexivity.
Qed.

(** Nobody offers a tool called [erase]. *)
Lemma unknown_tool_does_nothing_witness :
  call_tool "erase" [("id", VStr "c1")] (running_editor ack)
    (imported (running_editor ack)) =
  (ToolResult VNone, imported (running_editor ack)).
Proof.
  apply (unknown_tool_does_nothing "erase" [("id", VStr "c1")]
           (running_editor ack) (imported (running_editor ack))).
  intros o. destruct o; discriminate.
Defined.

(** X15. A tool call that lacks an argument the tool reads ends with the
    [KeyError] of the first such argument, in the order id, x, y and then
    the sizes, before the drawing API is entered: the machine is left
    untouched, so nothing is discovered, connected or sent, and
    [set_file] does not touch the target. *)
Theorem missing_argument_is_key_error (name key : string)
  (arguments : list (string * value)) (w : World) (m : Machine) :
  first_missing arguments (required_keys name) = Some key ->
  call_tool name arguments w m = (ToolKeyError key, m).
Proof.
  unfold call_tool, required_keys.
  destruct (String.eqb_spec name "get_active_file") as [->|_];
    [cbn; discriminate|].
  destruct (String.eqb_spec name "set_file") as [->|_].
  { cbn. unfold subscript.
    destruct (dict_lookup arguments "file_path");
      [discriminate | intros [= <-]; reflexivity]. }
  destruct (String.eqb_spec name "draw_circle") as [->|_].
  { cbn. unfold subscript.
    repeat match goal with
           | |- context [dict_lookup arguments ?k] =>
               destruct (dict_lookup arguments k);
               [|intros [= <-]; reflexivity]
           end.
    discriminate. }
  destruct (String.eqb_spec name "draw_rectangle") as [->|_].
  { cbn. unfold subscript.
    repeat match goal with
           | |- context [dict_lookup arguments ?k] =>
               destruct (dict_lookup arguments k);
               [|intros [= <-]; reflexivity]
           end.
    discriminate. }
  destruct (String.eqb_spec name "get_elements") as [->|_];
    [cbn; discriminate|].
  destruct (String.eqb_spec name "get_element_by_id") as [->|_].
  { cbn. unfold subscript.
    destruct (dict_lookup arguments "id");
      [discriminate | intros [= <-]; reflexivity]. }
  cbn. discriminate.
Qed.

(** A circle without its radius. *)
Lemma missing_argument_is_key_error_witness :
  call_tool "draw_circle"
    [("id", VStr "c1"); ("x", VInt 10); ("y", VInt 20)]
    (running_editor ack)
    (after_calls (running_editor ack) [OpSetFile "/tmp/x.luke"]) =
  (ToolKeyError "radius",
   after_calls (running_editor ack) [OpSetFile "/tmp/x.luke"]).
Proof.
  apply (missing_argument_is_key_error "draw_circle" "radius"
           [("id", VStr "c1"); ("x", VInt 10); ("y", VInt 20)]
           (running_editor ack)
           (after_calls (running_editor ack) [OpSetFile "/tmp/x.luke"])).
  reflexivity.
Defined.

(** ** Sockets *)

(** X16. No socket leaks. After the import and any sequence of calls, in
    any world, the sockets opened and not yet closed are exactly the one
    of the handle the object holds: none when it holds no handle. Every
    handle that was dropped was closed first. *)
Theorem no_socket_leaks (w : World) (ops : list operation) :
  open_socks (trace (after_calls w ops)) =
    match ws (self (after_calls w ops)) with
    | Some h => [sock h]
    | None => []
    end.
Proof.
  pose proof (run_calls_wf ops w (imported w) (init_wf w)) as Hwf.
  unfold after_calls. unfold wf in Hwf.
  destruct (ws (self (run_calls ops w (imported w)))) as [h|];
    [apply Hwf | exact Hwf].
Qed.
